(** * omp.py: the xonsh prompt bridge of OMP

    A shallow embedding of [src/shell/scripts/omp.py].  The script is
    xonsh code: Python with shell syntax.  Its module-level statements run
    once when the shell loads it, and its two functions are called by the
    host shell at every prompt draw.

    - Python [float]s are IEEE 754 binary64 numbers: [spec_float] with the
      operations of [SpecFloat] at precision 53 and maximal exponent 1024.
    - Python [int]s are unbounded: [Z].
    - Python exceptions are values of [py_error]; a computation runs in a
      small state-and-error monad over the state of the shell. *)

From Stdlib Require Import ZArith Lia List Bool.
From Stdlib Require Import Floats.SpecFloat.
From stdpp Require Import gmap strings pretty.

Local Open Scope string_scope.
Local Open Scope Z_scope.

(** ** Python floats *)

Module PyFloat.

Definition prec : Z := 53.
Definition emax : Z := 1024.

Definition float : Type := spec_float.

(** [x - y] and [x * y] on floats. *)
Definition sub (x y : float) : float := SFsub prec emax x y.
Definition mul (x y : float) : float := SFmul prec emax x y.

(** [x <= y] on floats. *)
Definition leb (x y : float) : bool := SFleb x y.

(** The float nearest to [m * 2^e]; with [e = 0] it is the conversion
    [float(m)] that Python applies to the [int] operand of a mixed
    product such as [x * 1000]. *)
Definition of_dyadic (m e : Z) : float := binary_normalize prec emax m e false.
Definition of_int (n : Z) : float := of_dyadic n 0.

(** A decimal literal with [k] fractional digits, [n / 10^k].  For [n] and
    [10^k] below [2^53] both conversions are exact, so the one correctly
    rounded division yields the float that Python reads the literal as. *)
Definition of_decimal (n : Z) (k : nat) : float :=
  SFdiv prec emax (of_int n) (of_int (10 ^ Z.of_nat k)).

Definition valid (x : float) : bool := valid_binary prec emax x.

Definition is_finite (x : float) : bool :=
  match x with
  | S754_zero _ | S754_finite _ _ _ => true
  | S754_infinity _ | S754_nan => false
  end.

(** The exact value of a finite float, as a fraction whose denominator
    is a power of two. *)
Definition to_ratio (x : float) : option (Z * Z) :=
  match x with
  | S754_zero _ => Some (0, 1)
  | S754_finite s m e =>
      Some (cond_Zopp s (Zpos m) * 2 ^ Z.max e 0, 2 ^ Z.max (- e) 0)
  | S754_infinity _ | S754_nan => None
  end.

End PyFloat.

(** ** Exceptions and results *)

Inductive py_error : Type :=
  | IndexError
  | KeyError (name : string)
  | OverflowError
  | ValueError.

Inductive result (A : Type) : Type :=
  | Ok (a : A)
  | Raise (e : py_error).
Arguments Ok {A} a.
Arguments Raise {A} e.

(** ** Built-ins used by the script *)

(** The integer nearest to [num / den], for a positive [den]: the floor
    when the remainder is below a half, the next integer when it is above,
    and the even one of the two at a half. *)
Definition round_half_even (num den : Z) : Z :=
  let q := num / den in
  let r := num mod den in
  match 2 * r ?= den with
  | Lt => q
  | Gt => q + 1
  | Eq => if Z.even q then q else q + 1
  end.

(** [round(x)] with one argument: the integer nearest to [x], a tie going
    to the even neighbour; [OverflowError] on an infinity and [ValueError]
    on a NaN.  A finite float is [(-1)^s * m * 2^e]: with [e >= 0] it is an
    integer already, otherwise it is split at the binary point. *)
Definition py_round (x : PyFloat.float) : result Z :=
  match x with
  | S754_zero _ => Ok 0
  | S754_infinity _ => Raise OverflowError
  | S754_nan => Raise ValueError
  | S754_finite s m e =>
      let sm := cond_Zopp s (Zpos m) in
      if 0 <=? e then Ok (sm * 2 ^ e)
      else Ok (round_half_even sm (2 ^ (- e)))
  end.

(** [l[i]] on a list: a negative index counts from the end, and an index
    out of range raises [IndexError]. *)
Definition py_getitem {A : Type} (l : list A) (i : Z) : result A :=
  let n := Z.of_nat (length l) in
  let j := if i <? 0 then i + n else i in
  if (j <? 0) || (n <=? j) then Raise IndexError
  else match l !! Z.to_nat j with
       | Some a => Ok a
       | None => Raise IndexError
       end.

(** The truth value of a sequence: false when it is empty. *)
Definition py_bool {A : Type} (l : list A) : bool :=
  match l with
  | [] => false
  | _ :: _ => true
  end.

(** [str(n)] of an [int]: its decimal digits, after a minus sign when it
    is negative. *)
Definition py_str (n : Z) : string := pretty n.

(** ** The state of the shell *)

(** An entry of the shell's history, as xonsh records it: the command
    line, its return code and the pair [ts] of start and end times, in
    seconds. *)
Record HistoryEntry : Type := mkEntry {
  cmd : string;
  rtn : Z;
  ts : list PyFloat.float
}.

(** The two functions the script defines; [$PROMPT] and [$RIGHT_PROMPT]
    hold one of them. *)
Inductive callable : Type :=
  | fn_posh_primary
  | fn_posh_right.

(** What the script reads and writes: the environment of the shell (its
    text variables, among them [$POWERLINE_COMMAND] and [$POSH_PID], and
    the two prompt hooks), the history, and two logs of what happened
    outside: how many UUIDs were drawn and which command lines were
    spawned. *)
Record Shell : Type := mkShell {
  env : gmap string string;
  PROMPT : option callable;
  RIGHT_PROMPT : option callable;
  history : list HistoryEntry;
  uuids_drawn : nat;
  spawned : list (list string)
}.

Definition set_env (k v : string) (s : Shell) : Shell :=
  mkShell (<[k := v]> (env s)) (PROMPT s) (RIGHT_PROMPT s) (history s)
          (uuids_drawn s) (spawned s).
Definition set_PROMPT (f : callable) (s : Shell) : Shell :=
  mkShell (env s) (Some f) (RIGHT_PROMPT s) (history s)
          (uuids_drawn s) (spawned s).
Definition set_RIGHT_PROMPT (f : callable) (s : Shell) : Shell :=
  mkShell (env s) (PROMPT s) (Some f) (history s)
          (uuids_drawn s) (spawned s).
Definition set_history (h : list HistoryEntry) (s : Shell) : Shell :=
  mkShell (env s) (PROMPT s) (RIGHT_PROMPT s) h
          (uuids_drawn s) (spawned s).
Definition count_uuid (s : Shell) : Shell :=
  mkShell (env s) (PROMPT s) (RIGHT_PROMPT s) (history s)
          (S (uuids_drawn s)) (spawned s).
Definition log_spawn (argv : list string) (s : Shell) : Shell :=
  mkShell (env s) (PROMPT s) (RIGHT_PROMPT s) (history s)
          (uuids_drawn s) (spawned s ++ [argv]).

(** ** The monad of script code

    A statement takes the shell from one state to the next and either
    yields a value or raises; what it changed before raising stays
    changed. *)
Definition M (A : Type) : Type := Shell -> result A * Shell.

Definition ret {A : Type} (a : A) : M A := fun s => (Ok a, s).
Definition bind {A B : Type} (c : M A) (k : A -> M B) : M B :=
  fun s => match c s with
           | (Ok a, s') => k a s'
           | (Raise e, s') => (Raise e, s')
           end.
Definition lift {A : Type} (r : result A) : M A := fun s => (r, s).
Definition modify (f : Shell -> Shell) : M unit := fun s => (Ok tt, f s).
Definition gets {A : Type} (f : Shell -> A) : M A := fun s => (Ok (f s), s).

Notation "'let*' x ':=' c 'in' k" := (bind c (fun x => k))
  (at level 10, x name, c at level 100, k at level 200).
Notation "c ';;' k" := (bind c (fun _ => k))
  (at level 100, k at level 200, right associativity).

(** [$NAME]: the value of an environment variable, [KeyError] when it is
    not set. *)
Definition getenv (name : string) : M string :=
  fun s => match env s !! name with
           | Some v => (Ok v, s)
           | None => (Raise (KeyError name), s)
           end.

(** The command line of a prompt call. *)
Definition renderer_argv (exe mode : string) (status duration : Z) (ver : string)
  : list string :=
  [exe; "print"; mode; "--shell=xonsh"; "--status=" +:+ py_str status;
   "--execution-time=" +:+ py_str duration; "--shell-version=" +:+ ver].

(** The command lines the script can spawn for a given executable and
    shell version. *)
Definition shaped (exe ver : string) (argv : list string) : Prop :=
  exists (mode : string) (status duration : Z),
    (mode = "primary" \/ mode = "right") /\
    argv = [exe; "print"; mode; "--shell=xonsh"; "--status=" +:+ py_str status;
            "--execution-time=" +:+ py_str duration; "--shell-version=" +:+ ver].

Section Script.

(** The hexadecimal form of the [n]-th UUID that [uuid.uuid4()] draws in
    this process. *)
Variable uuid4_hex : nat -> string.

(** What [$(argv)] evaluates to: the text the shell captures from the
    standard output of the process it runs with the given environment
    and command line. *)
Variable captured_stdout : gmap string string -> list string -> string.

(** [uuid.uuid4().hex]: the next UUID, which is then one more drawn. *)
Definition uuid4 : M string :=
  fun s => (Ok (uuid4_hex (uuids_drawn s)), count_uuid s).

(** [$(argv)]: the shell spawns the command line and yields what it
    captured.  A renderer that cannot be started is outside this model:
    the operator is taken to yield a text. *)
Definition subproc_captured (argv : list string) : M string :=
  fun s => (Ok (captured_stdout (env s) argv), log_spawn argv s).

(** *** The functions of the script *)

(** [get_command_context] (lines 9 to 13): the return code and the
    duration in milliseconds of the last command, [(0, 0)] before the first
    one.  [__xonsh__.history[-1]] is read when the history is not empty,
    and [ts[1]] before [ts[0]]. *)
Definition get_command_context : M (Z * Z) :=
  let* h := gets history in
  let* last_cmd :=
    if py_bool h
    then let* c := lift (py_getitem h (-1)) in ret (Some c)
    else ret None in
  let status := match last_cmd with Some c => rtn c | None => 0 end in
  let* duration :=
    match last_cmd with
    | Some c =>
        let* t1 := lift (py_getitem (ts c) 1) in
        let* t0 := lift (py_getitem (ts c) 0) in
        lift (py_round (PyFloat.mul (PyFloat.sub t1 t0) (PyFloat.of_int 1000)))
    | None => ret 0
    end in
  ret (status, duration).

(** [posh_primary] (lines 15 to 17). *)
Definition posh_primary : M string :=
  let* context := get_command_context in
  let '(status, duration) := context in
  let* exe := getenv "POSH_EXECUTABLE" in
  let* ver := getenv "POSH_SHELL_VERSION" in
  subproc_captured
    [exe; "print"; "primary"; "--shell=xonsh";
     "--status=" +:+ py_str status;
     "--execution-time=" +:+ py_str duration;
     "--shell-version=" +:+ ver].

(** [posh_right] (lines 19 to 21). *)
Definition posh_right : M string :=
  let* context := get_command_context in
  let '(status, duration) := context in
  let* exe := getenv "POSH_EXECUTABLE" in
  let* ver := getenv "POSH_SHELL_VERSION" in
  subproc_captured
    [exe; "print"; "right"; "--shell=xonsh";
     "--status=" +:+ py_str status;
     "--execution-time=" +:+ py_str duration;
     "--shell-version=" +:+ ver].

(** *** The module-level statements, run once when the script is loaded *)

(** Lines 3 to 7, then lines 24 and 25.  Every name assigned is written
    with [$]: each is a variable of the environment, the last two being
    the prompt hooks. *)
Definition load_script : M unit :=
  modify (set_env "POWERLINE_COMMAND" "OMP");;
  modify (set_env "POSH_THEME" "::CONFIG::");;
  (let* u := uuid4 in modify (set_env "POSH_PID" u));;
  (let* v := getenv "XONSH_VERSION" in modify (set_env "POSH_SHELL_VERSION" v));;
  modify (set_env "POSH_EXECUTABLE" "::OMP::");;
  modify (set_PROMPT fn_posh_primary);;
  modify (set_RIGHT_PROMPT fn_posh_right).

(** *** The host shell

    The script only registers its two functions; calling them is the work
    of xonsh, which is not part of the repository.  The definitions below
    give the host as the specification describes it (sections 4.1, 5 and
    6). *)

(** Modelled from the spec: the shell before the script runs, with the
    environment the host provides, an empty history and nothing spawned. *)
Definition fresh_shell (host_env : gmap string string) : Shell :=
  mkShell host_env None None [] 0 [].

(** Calling one of the two functions. *)
Definition call (f : callable) : M string :=
  match f with
  | fn_posh_primary => posh_primary
  | fn_posh_right => posh_right
  end.

(** Modelled from the spec: the host calls a hook with no arguments and
    expects a string; a hook that is not set leaves the host's own prompt,
    which spawns nothing. *)
Definition call_hook (hook : option callable) : M string :=
  match hook with
  | Some f => call f
  | None => ret ""
  end.

(** Modelled from the spec: one prompt draw.  The host calls [$PROMPT],
    then [$RIGHT_PROMPT], one after the other.  What the host does with a
    hook that raises is left open there; here its text is lost and the
    draw goes on. *)
Definition draw_prompt (s : Shell) : (result string * result string) * Shell :=
  let '(p, s1) := call_hook (PROMPT s) s in
  let '(r, s2) := call_hook (RIGHT_PROMPT s1) s1 in
  ((p, r), s2).

(** Modelled from the spec: what happens in a session after the script is
    loaded.  A command runs and the host appends its entry to the history,
    or a prompt is drawn.  Commands are taken not to assign the variables
    of the script. *)
Inductive event : Type :=
  | Executed (c : HistoryEntry)
  | Draw.

(** Modelled from the spec: the effect of one event on the shell. *)
Definition host_step (s : Shell) (ev : event) : Shell :=
  match ev with
  | Executed c => set_history (history s ++ [c]) s
  | Draw => snd (draw_prompt s)
  end.

(** Modelled from the spec: the events of a session, in order. *)
Definition run (evs : list event) (s : Shell) : Shell :=
  fold_left host_step evs s.

(** Modelled from the spec: a session.  A fresh shell loads the script,
    then the events happen. *)
Definition session (host_env : gmap string string) (evs : list event) : Shell :=
  run evs (snd (load_script (fresh_shell host_env))).

(** Both prompt functions, called in the state [s], run the renderer
    with the given status and duration. *)
Definition both_prompts_pass (s : Shell) (status duration : Z) : Prop :=
  forall exe ver : string,
    env s !! "POSH_EXECUTABLE" = Some exe ->
    env s !! "POSH_SHELL_VERSION" = Some ver ->
    spawned (snd (posh_primary s)) =
      (spawned s ++ [[exe; "print"; "primary"; "--shell=xonsh";
                      "--status=" +:+ py_str status;
                      "--execution-time=" +:+ py_str duration;
                      "--shell-version=" +:+ ver]])%list
    /\ spawned (snd (posh_right s)) =
      (spawned s ++ [[exe; "print"; "right"; "--shell=xonsh";
                      "--status=" +:+ py_str status;
                      "--execution-time=" +:+ py_str duration;
                      "--shell-version=" +:+ ver]])%list.

(** Whatever a prompt call does, it either spawns nothing and leaves the
    shell as it was, or it spawns one renderer with the command line
    above, built from the environment and the command context. *)
Inductive prompt_effect (mode : string) (s : Shell) : result string * Shell -> Prop :=
  | effect_raise (e : py_error) : prompt_effect mode s (Raise e, s)
  | effect_spawn (status duration : Z) (exe ver : string) :
      fst (get_command_context s) = Ok (status, duration) ->
      env s !! "POSH_EXECUTABLE" = Some exe ->
      env s !! "POSH_SHELL_VERSION" = Some ver ->
      prompt_effect mode s
        (Ok (captured_stdout (env s) (renderer_argv exe mode status duration ver)),
         log_spawn (renderer_argv exe mode status duration ver) s).

End Script.

(** ** Float literals of the examples *)

Definition float_0_0 : PyFloat.float := S754_zero false.
Definition float_10_0 : PyFloat.float := PyFloat.of_decimal 100 1.
Definition float_10_5 : PyFloat.float := PyFloat.of_decimal 105 1.
Definition float_1_2345 : PyFloat.float := PyFloat.of_decimal 12345 4.

(** ** Notions the statements use *)

(** [d] is the integer nearest to [num / den], the even one of the two
    when [num / den] lies half-way between two integers. *)
Definition nearest_ties_even (num den d : Z) : Prop :=
  2 * Z.abs (d * den - num) <= den /\
  (2 * Z.abs (d * den - num) = den -> Z.even d = true).

(** Rounding half up, as the specification words it: the integer nearest
    to [num / den], the upper one of the two at a tie. *)
Definition round_half_up (num den : Z) : Z := (2 * num + den) / (2 * den).

Definition py_round_half_up (x : PyFloat.float) : option Z :=
  match PyFloat.to_ratio x with
  | Some (num, den) => Some (round_half_up num den)
  | None => None
  end.

(** The last entry of the history has two timestamps, both finite floats
    in canonical form, and the command did not end before it started. *)
Definition end_not_before_start (h : list HistoryEntry) : bool :=
  match last h with
  | None => true
  | Some c =>
      match ts c !! 0%nat, ts c !! 1%nat with
      | Some t0, Some t1 =>
          PyFloat.valid t0 && PyFloat.valid t1 &&
          PyFloat.is_finite t0 && PyFloat.is_finite t1 && PyFloat.leb t0 t1
      | _, _ => false
      end
  end.

(** The last entry of the history has two timestamps. *)
Definition has_two_timestamps (h : list HistoryEntry) : bool :=
  match last h with
  | None => true
  | Some c => Nat.eqb (length (ts c)) 2
  end.

(** The last entry of the history has two timestamps, and their difference
    in milliseconds is a finite float. *)
Definition scaled_difference_finite (h : list HistoryEntry) : bool :=
  match last h with
  | None => true
  | Some c =>
      match ts c !! 0%nat, ts c !! 1%nat with
      | Some t0, Some t1 =>
          PyFloat.is_finite (PyFloat.mul (PyFloat.sub t1 t0) (PyFloat.of_int 1000))
      | _, _ => false
      end
  end.

(** A float that is zero, or has the sign [s] and is finite or infinite. *)
Definition signed (s : bool) (x : spec_float) : Prop :=
  match x with
  | S754_zero _ => True
  | S754_infinity sx | S754_finite sx _ _ => sx = s
  | S754_nan => False
  end.

(** The status and the duration of one entry, as [get_command_context]
    reads them. *)
Definition entry_context (c : HistoryEntry) : result (Z * Z) :=
  match py_getitem (ts c) 1 with
  | Raise e => Raise e
  | Ok t1 =>
      match py_getitem (ts c) 0 with
      | Raise e => Raise e
      | Ok t0 =>
          match py_round (PyFloat.mul (PyFloat.sub t1 t0) (PyFloat.of_int 1000)) with
          | Raise e => Raise e
          | Ok d => Ok (rtn c, d)
          end
      end
  end.

(** What a prompt call leaves alone: everything but the log of spawned
    processes. *)
Definition frame (s s' : Shell) : Prop :=
  env s' = env s /\ PROMPT s' = PROMPT s /\ RIGHT_PROMPT s' = RIGHT_PROMPT s /\
  history s' = history s /\ uuids_drawn s' = uuids_drawn s.

(** What a step of the host keeps: the environment, the hooks and the
    count of UUIDs. *)
Definition kept (s s' : Shell) : Prop :=
  env s' = env s /\ PROMPT s' = PROMPT s /\ RIGHT_PROMPT s' = RIGHT_PROMPT s /\
  uuids_drawn s' = uuids_drawn s.

(** ** A sample session *)

Definition sample_env : gmap string string := {[ "XONSH_VERSION" := "0.14.0" ]}.
Definition sample_uuid (n : nat) : string := "7c9e6679742540de944be07fc1f90ae7".
Definition sample_stdout (e : gmap string string) (argv : list string) : string :=
  match argv !! 2%nat with
  | Some mode => mode +:+ "> "
  | None => ""
  end.
Definition sample_session (evs : list event) : Shell :=
  session sample_uuid sample_stdout sample_env evs.

(** Two commands of the sample session: one that fails after half a
    second, and one whose duration in milliseconds ends in a half. *)
Definition failed_entry : HistoryEntry := mkEntry "false" 1 [float_10_0; float_10_5].
Definition tie_entry : HistoryEntry := mkEntry "make" 0 [float_0_0; float_1_2345].

(** ** Notions of the further properties *)

(** The outcome with the duration negated, the status being [status]. *)
Definition negated (status : Z) (r : result (Z * Z)) : result (Z * Z) :=
  match r with
  | Ok (_, d) => Ok (status, - d)
  | Raise e => Raise e
  end.

(** [y] is [x] with the sign flipped, or both are zeros. *)
Definition opposite (x y : PyFloat.float) : Prop :=
  y = SFopp x \/
  match x, y with
  | S754_zero _, S754_zero _ => True
  | _, _ => False
  end.

(** The mode word each of the two functions passes. *)
Definition mode_of (f : callable) : string :=
  match f with
  | fn_posh_primary => "primary"
  | fn_posh_right => "right"
  end.

(** The state of a session in which every draw renders both prompts. *)
Definition rendering (s : Shell) : Prop :=
  PROMPT s = Some fn_posh_primary /\ RIGHT_PROMPT s = Some fn_posh_right /\
  is_Some (env s !! "POSH_EXECUTABLE") /\ is_Some (env s !! "POSH_SHELL_VERSION") /\
  scaled_difference_finite (history s) = true.

(** The number of prompt draws among the events. *)
Fixpoint draws (evs : list event) : nat :=
  match evs with
  | [] => 0
  | Draw :: evs' => S (draws evs')
  | Executed _ :: evs' => draws evs'
  end.

(** The entry of the last command executed among the events. *)
Fixpoint last_executed (evs : list event) : option HistoryEntry :=
  match evs with
  | [] => None
  | Executed c :: evs' =>
      match last_executed evs' with
      | Some c' => Some c'
      | None => Some c
      end
  | Draw :: evs' => last_executed evs'
  end.

(** Every command executed among the events left an entry with two
    timestamps whose difference in milliseconds is a finite float. *)
Fixpoint all_entries_finite (evs : list event) : bool :=
  match evs with
  | [] => true
  | Executed c :: evs' => scaled_difference_finite [c] && all_entries_finite evs'
  | Draw :: evs' => all_entries_finite evs'
  end.

(** Further commands of the sample session: one with its timestamps the
    wrong way round, one that takes no time, one whose entry lacks the end
    timestamp. *)
Definition reversed_entry : HistoryEntry := mkEntry "date" 0 [float_10_5; float_10_0].
Definition instant_entry : HistoryEntry := mkEntry "true" 0 [float_10_5; float_10_5].
Definition short_entry : HistoryEntry := mkEntry "sleep 1" 0 [float_10_0].

(** Two entries whose difference in milliseconds is too large for a
    float: from [0.0] to [2^1023], and back. *)
Definition float_2_1023 : PyFloat.float := PyFloat.of_dyadic 1 1023.
Definition overflow_entry : HistoryEntry := mkEntry "sleep" 0 [float_0_0; float_2_1023].
Definition underflow_entry : HistoryEntry := mkEntry "sleep" 0 [float_2_1023; float_0_0].

(** * Properties *)

(** ** The built-ins on small inputs *)

Example py_str_samples :
  py_str 0 = "0" /\ py_str 500 = "500" /\ py_str (-500) = "-500" /\ py_str 1234 = "1234".
Proof. repeat split; reflexivity. Qed.

Example py_getitem_samples :
  py_getitem [10; 20; 30] (-1) = Ok 30
  /\ py_getitem [10; 20; 30] 0 = Ok 10
  /\ py_getitem [10; 20; 30] 1 = Ok 20
  /\ py_getitem [10; 20; 30] 3 = Raise IndexError
  /\ py_getitem [10; 20; 30] (-4) = Raise IndexError
  /\ py_getitem (@nil Z) (-1) = Raise IndexError.
Proof. repeat split; reflexivity. Qed.

(** [round(0.5) = 0], [round(1.5) = 2], [round(2.5) = 2], [round(-0.5) = 0],
    [round(-1.5) = -2], [round(-2.5) = -2] and [round(2.75) = 3]. *)
Example py_round_samples :
  py_round (PyFloat.of_dyadic 1 (-1)) = Ok 0
  /\ py_round (PyFloat.of_dyadic 3 (-1)) = Ok 2
  /\ py_round (PyFloat.of_dyadic 5 (-1)) = Ok 2
  /\ py_round (SFopp (PyFloat.of_dyadic 1 (-1))) = Ok 0
  /\ py_round (SFopp (PyFloat.of_dyadic 3 (-1))) = Ok (-2)
  /\ py_round (SFopp (PyFloat.of_dyadic 5 (-1))) = Ok (-2)
  /\ py_round (PyFloat.of_dyadic 11 (-2)) = Ok 3
  /\ py_round (S754_infinity false) = Raise OverflowError
  /\ py_round S754_nan = Raise ValueError.
Proof. vm_compute. repeat split; reflexivity. Qed.

(** The literals: [10.0] and [10.5] are exact, and [1.2345] is the float
    [5559693739988877 * 2^-52], within half a unit in the last place of
    [12345 / 10000]. *)
Example float_literals :
  PyFloat.to_ratio float_10_0 = Some (10 * 2 ^ 49, 2 ^ 49)
  /\ PyFloat.to_ratio float_10_5 = Some (21 * 2 ^ 48, 2 ^ 49)
  /\ float_1_2345 = S754_finite false 5559693739988877 (-52)
  /\ 2 * Z.abs (5559693739988877 * 10000 - 12345 * 2 ^ 52) <= 10000
  /\ PyFloat.valid float_10_0 && PyFloat.valid float_10_5 && PyFloat.valid float_1_2345
     = true.
Proof. vm_compute. repeat split; try reflexivity; discriminate. Qed.

(** ** Floats: order and signs *)

Lemma digits2_pos_bounds (m : positive) :
  2 ^ (Zpos (digits2_pos m) - 1) <= Zpos m < 2 ^ Zpos (digits2_pos m).
Proof.
  induction m as [m IH | m IH |]; cbn [digits2_pos].
  - rewrite Pos2Z.inj_succ, Z.pow_succ_r by lia.
    replace (Z.succ (Zpos (digits2_pos m)) - 1) with (Z.succ (Zpos (digits2_pos m) - 1)) by lia.
    rewrite Z.pow_succ_r by lia. lia.
  - rewrite Pos2Z.inj_succ, Z.pow_succ_r by lia.
    replace (Z.succ (Zpos (digits2_pos m)) - 1) with (Z.succ (Zpos (digits2_pos m) - 1)) by lia.
    rewrite Z.pow_succ_r by lia. lia.
  - cbn. lia.
Qed.

Lemma iter_xO (m d : positive) : Zpos (Pos.iter xO m d) = Zpos m * 2 ^ Zpos d.
Proof.
  induction d as [| d IH] using Pos.peano_ind.
  - cbn [Pos.iter]. lia.
  - rewrite Pos.iter_succ, Pos2Z.inj_succ, Z.pow_succ_r by lia.
    rewrite Pos2Z.inj_xO, IH. lia.
Qed.

Lemma shl_align_value (m : positive) (e e' : Z) :
  e' <= e -> Zpos (fst (shl_align m e e')) = Zpos m * 2 ^ (e - e').
Proof.
  intros Hle. unfold shl_align.
  destruct (e' - e) as [| d | d] eqn:Hd.
  - replace (e - e') with 0 by lia. cbn [fst]. lia.
  - lia.
  - cbn [fst]. rewrite iter_xO. f_equal. f_equal. lia.
Qed.

Lemma canonical_digits (m : positive) (e : Z) :
  canonical_mantissa PyFloat.prec PyFloat.emax m e = true ->
  Zpos (digits2_pos m) <= 53 /\ (emin PyFloat.prec PyFloat.emax < e -> Zpos (digits2_pos m) = 53).
Proof.
  unfold canonical_mantissa, fexp, emin, PyFloat.prec, PyFloat.emax. intros H%Z.eqb_eq. lia.
Qed.

Lemma canonical_emin (m : positive) (e : Z) :
  canonical_mantissa PyFloat.prec PyFloat.emax m e = true -> emin PyFloat.prec PyFloat.emax <= e.
Proof.
  unfold canonical_mantissa, fexp, emin, PyFloat.prec, PyFloat.emax. intros H%Z.eqb_eq. lia.
Qed.

(** Order of two canonical positive floats with increasing exponents. *)
Lemma canonical_lt (m1 m2 : positive) (e1 e2 : Z) :
  canonical_mantissa PyFloat.prec PyFloat.emax m1 e1 = true ->
  canonical_mantissa PyFloat.prec PyFloat.emax m2 e2 = true ->
  e1 < e2 -> Zpos m1 < Zpos m2 * 2 ^ (e2 - e1).
Proof.
  intros H1 H2 Hlt.
  pose proof (canonical_digits _ _ H1) as [Hd1 _].
  pose proof (canonical_digits _ _ H2) as [_ Hd2].
  pose proof (canonical_emin _ _ H1) as Hmin.
  specialize (Hd2 ltac:(lia)).
  pose proof (digits2_pos_bounds m1) as [_ Hu].
  pose proof (digits2_pos_bounds m2) as [Hl _].
  rewrite Hd2 in Hl.
  assert (Zpos m1 < 2 ^ 53).
  { eapply Z.lt_le_trans; [exact Hu |]. apply Z.pow_le_mono_r; lia. }
  assert (2 ^ 1 <= 2 ^ (e2 - e1)) by (apply Z.pow_le_mono_r; lia).
  change (2 ^ (53 - 1)) with 4503599627370496 in Hl.
  change (2 ^ 53) with 9007199254740992 in H.
  change (2 ^ 1) with 2 in H0.
  nia.
Qed.

Lemma leb_finite_aligned (s0 s1 : bool) (m0 m1 : positive) (e0 e1 : Z) :
  canonical_mantissa PyFloat.prec PyFloat.emax m0 e0 = true ->
  canonical_mantissa PyFloat.prec PyFloat.emax m1 e1 = true ->
  SFleb (S754_finite s0 m0 e0) (S754_finite s1 m1 e1) = true ->
  cond_Zopp s0 (Zpos (fst (shl_align m0 e0 (Z.min e1 e0))))
  <= cond_Zopp s1 (Zpos (fst (shl_align m1 e1 (Z.min e1 e0)))).
Proof.
  intros H0 H1 Hle.
  rewrite !shl_align_value by lia.
  unfold SFleb, SFcompare in Hle.
  change (Pos.compare_cont Eq m0 m1) with (Pos.compare m0 m1) in Hle.
  assert (Hp0 : 0 < 2 ^ (e0 - Z.min e1 e0)) by (apply Z.pow_pos_nonneg; lia).
  assert (Hp1 : 0 < 2 ^ (e1 - Z.min e1 e0)) by (apply Z.pow_pos_nonneg; lia).
  destruct s0, s1; cbn [cond_Zopp]; try discriminate; [| nia |].
  - (* both negative *)
    destruct (Z.compare_spec e0 e1) as [Heq | Hlt | Hgt]; try discriminate.
    + subst e1. rewrite Z.min_id, Z.sub_diag. 
      destruct (Pos.compare_spec m0 m1) as [Hm | Hm | Hm]; try discriminate; cbn; lia.
    + pose proof (canonical_lt _ _ _ _ H1 H0 Hgt) as Hc.
      rewrite Z.min_l, Z.sub_diag by lia. change (2 ^ 0) with 1. lia.
  - (* both non-negative *)
    destruct (Z.compare_spec e0 e1) as [Heq | Hlt | Hgt]; try discriminate.
    + subst e1. rewrite Z.min_id, Z.sub_diag.
      destruct (Pos.compare_spec m0 m1) as [Hm | Hm | Hm]; try discriminate; cbn; lia.
    + pose proof (canonical_lt _ _ _ _ H0 H1 Hlt) as Hc.
      rewrite Z.min_r, Z.sub_diag by lia. change (2 ^ 0) with 1. lia.
Qed.

(** ** Signs of rounded results *)

Lemma shr_1_nonneg (mrs : shr_record) : 0 <= shr_m mrs -> 0 <= shr_m (shr_1 mrs).
Proof.
  destruct mrs as [m r s]. cbn [shr_m]. intros Hm.
  destruct m as [| [p | p |] | p]; cbn; lia.
Qed.

Lemma iter_pos_shr_1_nonneg (p : positive) (mrs : shr_record) :
  0 <= shr_m mrs -> 0 <= shr_m (SpecFloat.iter_pos shr_1 p mrs).
Proof.
  revert mrs. induction p as [p IH | p IH |]; intros mrs Hm; cbn [iter_pos].
  - apply IH, IH, shr_1_nonneg, Hm.
  - apply IH, IH, Hm.
  - apply shr_1_nonneg, Hm.
Qed.

Lemma shr_nonneg (mrs : shr_record) (e n : Z) :
  0 <= shr_m mrs -> 0 <= shr_m (fst (shr mrs e n)).
Proof.
  intros Hm. destruct n as [| p | p]; cbn [shr fst]; auto using iter_pos_shr_1_nonneg.
Qed.

Lemma shr_fexp_nonneg (m e : Z) (l : location) :
  0 <= m -> 0 <= shr_m (fst (shr_fexp PyFloat.prec PyFloat.emax m e l)).
Proof.
  intros Hm. unfold shr_fexp. apply shr_nonneg.
  destruct l as [| []]; exact Hm.
Qed.

Lemma round_nearest_even_nonneg (m : Z) (l : location) :
  0 <= m -> 0 <= round_nearest_even m l.
Proof.
  intros Hm. destruct l as [| []]; cbn [round_nearest_even]; try lia.
  destruct (Z.even m); lia.
Qed.

Lemma binary_round_aux_signed (s : bool) (m e : Z) (l : location) :
  0 <= m -> signed s (binary_round_aux PyFloat.prec PyFloat.emax s m e l).
Proof.
  intros Hm. unfold binary_round_aux.
  pose proof (shr_fexp_nonneg m e l Hm) as H1.
  destruct (shr_fexp PyFloat.prec PyFloat.emax m e l) as [mrs' e'] eqn:E1. cbn [fst] in H1.
  pose proof (shr_fexp_nonneg _ e' loc_Exact
                (round_nearest_even_nonneg _ (loc_of_shr_record mrs') H1)) as H2.
  destruct (shr_fexp PyFloat.prec PyFloat.emax (round_nearest_even _ _) e' loc_Exact) as [mrs'' e''].
  cbn [fst] in H2.
  destruct (shr_m mrs'') as [| p | p]; [exact I | | lia].
  destruct (e'' <=? PyFloat.emax - PyFloat.prec); reflexivity.
Qed.

Lemma binary_round_signed (s : bool) (m : positive) (e : Z) :
  signed s (binary_round PyFloat.prec PyFloat.emax s m e).
Proof.
  unfold binary_round. destruct (shl_align _ _ _) as [mz ez].
  apply binary_round_aux_signed. lia.
Qed.

Lemma binary_normalize_signed (m e : Z) :
  0 <= m -> signed false (binary_normalize PyFloat.prec PyFloat.emax m e false).
Proof.
  intros Hm. destruct m as [| p | p]; cbn [binary_normalize]; [exact I | | lia].
  apply binary_round_signed.
Qed.

Lemma sub_signed (t0 t1 : spec_float) :
  PyFloat.valid t0 = true -> PyFloat.valid t1 = true ->
  PyFloat.is_finite t0 = true -> PyFloat.is_finite t1 = true ->
  PyFloat.leb t0 t1 = true ->
  signed false (PyFloat.sub t1 t0).
Proof.
  intros V0 V1 F0 F1 Hle. unfold PyFloat.leb in Hle.
  destruct t0 as [s0 | s0 | | s0 m0 e0], t1 as [s1 | s1 | | s1 m1 e1];
    try discriminate; unfold PyFloat.sub, SFsub.
  - destruct s1, s0; exact I.
  - cbn [signed]. unfold SFleb, SFcompare in Hle. now destruct s1.
  - cbn [signed]. unfold SFleb, SFcompare in Hle. now destruct s0.
  - apply binary_normalize_signed.
    unfold PyFloat.valid in V0, V1. cbn [valid_binary] in V0, V1. unfold bounded in V0, V1.
    apply andb_true_iff in V0 as [C0 _]. apply andb_true_iff in V1 as [C1 _].
    pose proof (leb_finite_aligned _ _ _ _ _ _ C0 C1 Hle). lia.
Qed.

Lemma mul_1000_signed (x : spec_float) :
  signed false x -> signed false (PyFloat.mul x (PyFloat.of_int 1000)).
Proof.
  intros Hx.
  change (PyFloat.of_int 1000)
    with (S754_finite false 8796093022208000 (-43)).
  destruct x as [s | s | | s m e]; cbn [signed] in Hx; try contradiction; unfold PyFloat.mul, SFmul.
  - exact I.
  - subst s. reflexivity.
  - subst s. cbn [xorb]. apply binary_round_aux_signed. lia.
Qed.

(** ** Rounding *)

Lemma round_half_even_nearest (num den : Z) :
  0 < den -> nearest_ties_even num den (round_half_even num den).
Proof.
  intros Hden. unfold nearest_ties_even, round_half_even.
  pose proof (Z.div_mod num den ltac:(lia)) as Hdm.
  pose proof (Z.mod_pos_bound num den Hden) as Hr.
  set (q := num / den) in *. set (r := num mod den) in *.
  destruct (Z.compare_spec (2 * r) den) as [Heq | Hlt | Hgt].
  - destruct (Z.even q) eqn:Hq.
    + split; [lia | auto].
    + split; [lia |]. intros _.
      rewrite Z.even_add, Hq. reflexivity.
  - split; lia.
  - split; lia.
Qed.

Lemma nearest_ties_even_unique (num den d1 d2 : Z) :
  0 < den ->
  nearest_ties_even num den d1 -> nearest_ties_even num den d2 -> d1 = d2.
Proof.
  intros Hden [H1 E1] [H2 E2].
  assert (Hcases : d1 = d2 \/ d1 = d2 + 1 \/ d2 = d1 + 1) by nia.
  destruct Hcases as [-> | [-> | ->]]; [reflexivity | |].
  - assert (T1 : 2 * Z.abs ((d2 + 1) * den - num) = den) by nia.
    assert (T2 : 2 * Z.abs (d2 * den - num) = den) by nia.
    specialize (E1 T1). specialize (E2 T2).
    rewrite Z.even_add, E2 in E1. discriminate.
  - assert (T1 : 2 * Z.abs (d1 * den - num) = den) by nia.
    assert (T2 : 2 * Z.abs ((d1 + 1) * den - num) = den) by nia.
    specialize (E1 T1). specialize (E2 T2).
    rewrite Z.even_add, E1 in E2. discriminate.
Qed.

Lemma to_ratio_den_pos (x : PyFloat.float) (num den : Z) :
  PyFloat.to_ratio x = Some (num, den) -> 0 < den.
Proof.
  destruct x as [s | s | | s m e]; cbn [PyFloat.to_ratio]; intros H;
    try discriminate; injection H as <- <-; [lia |].
  apply Z.pow_pos_nonneg; lia.
Qed.

(** [round] on a finite float is rounding to nearest, ties to even. *)
Lemma py_round_nearest (x : PyFloat.float) (num den : Z) :
  PyFloat.to_ratio x = Some (num, den) ->
  exists d : Z, py_round x = Ok d /\ nearest_ties_even num den d.
Proof.
  destruct x as [s | s | | s m e]; cbn [PyFloat.to_ratio py_round]; intros H;
    try discriminate; injection H as <- <-.
  - exists 0. split; [reflexivity |]. split; [lia | reflexivity].
  - destruct (Z.leb_spec 0 e) as [Hpos | Hneg].
    + eexists. split; [reflexivity |].
      rewrite Z.max_l, Z.max_r by lia. change (2 ^ 0) with 1.
      split; lia.
    + eexists. split; [reflexivity |].
      rewrite Z.max_r, Z.max_l by lia. change (2 ^ 0) with 1. rewrite Z.mul_1_r.
      apply round_half_even_nearest. apply Z.pow_pos_nonneg; lia.
Qed.

(** The two conditions pin the result down: no other integer meets them. *)
Lemma py_round_unique (x : PyFloat.float) (num den d : Z) :
  PyFloat.to_ratio x = Some (num, den) ->
  nearest_ties_even num den d ->
  py_round x = Ok d.
Proof.
  intros Hratio Hd.
  destruct (py_round_nearest _ _ _ Hratio) as (d' & Hround & Hd').
  rewrite Hround. f_equal.
  eapply nearest_ties_even_unique; eauto using to_ratio_den_pos.
Qed.

Lemma py_round_signed (x : PyFloat.float) :
  signed false x ->
  (exists d : Z, py_round x = Ok d /\ 0 <= d) \/ py_round x = Raise OverflowError.
Proof.
  destruct x as [s | s | | s m e]; cbn [signed py_round]; intros Hs;
    try contradiction.
  - left. exists 0. split; [reflexivity | lia].
  - now right.
  - subst s. cbn [cond_Zopp]. left.
    destruct (Z.leb_spec 0 e) as [Hpos | Hneg]; eexists; (split; [reflexivity |]).
    + apply Z.mul_nonneg_nonneg; [lia | apply Z.pow_nonneg; lia].
    + pose proof (round_half_even_nearest (Zpos m) (2 ^ (- e))
                    ltac:(apply Z.pow_pos_nonneg; lia)) as [Hn _].
      assert (0 < 2 ^ (- e)) by (apply Z.pow_pos_nonneg; lia).
      nia.
Qed.

(** A float of a known sign either rounds to an integer of that sign, or
    is the infinity of that sign, on which [round] raises. *)
Lemma py_round_signed_cases (sg : bool) (x : PyFloat.float) :
  signed sg x ->
  (PyFloat.is_finite x = true ->
   exists d : Z, py_round x = Ok d /\ (if sg then d <= 0 else 0 <= d))
  /\ (PyFloat.is_finite x = false ->
      x = S754_infinity sg /\ py_round x = Raise OverflowError).
Proof.
  destruct x as [s | s | | s m e]; cbn [signed py_round PyFloat.is_finite]; intros Hs;
    try contradiction; (split; [intros Hf | intros Hf]); try discriminate.
  - exists 0. split; [reflexivity | destruct sg; lia].
  - subst s. split; reflexivity.
  - subst s.
    destruct (Z.leb_spec 0 e) as [Hpos | Hneg]; eexists; (split; [reflexivity |]).
    + assert (0 < 2 ^ e) by (apply Z.pow_pos_nonneg; lia).
      destruct sg; cbn [cond_Zopp]; nia.
    + assert (Hden : 0 < 2 ^ (- e)) by (apply Z.pow_pos_nonneg; lia).
      pose proof (round_half_even_nearest (cond_Zopp sg (Zpos m)) (2 ^ (- e)) Hden)
        as [Hn _].
      destruct sg; cbn [cond_Zopp] in *; nia.
Qed.

(** ** Indexing *)

Lemma py_getitem_last {A : Type} (l : list A) (a : A) :
  last l = Some a -> py_getitem l (-1) = Ok a.
Proof.
  intros Hlast. unfold py_getitem.
  assert (Hlen : (0 < length l)%nat).
  { destruct l; [discriminate | simpl; lia]. }
  rewrite last_lookup in Hlast.
  replace (-1 <? 0) with true by reflexivity.
  destruct (Z.ltb_spec (-1 + Z.of_nat (length l)) 0) as [Hneg | _]; [lia |].
  destruct (Z.leb_spec (Z.of_nat (length l)) (-1 + Z.of_nat (length l))) as [Hge | _]; [lia |].
  simpl orb. cbv iota.
  replace (Z.to_nat (-1 + Z.of_nat (length l))) with (pred (length l)) by lia.
  now rewrite Hlast.
Qed.

Lemma py_getitem_empty {A : Type} (i : Z) : py_getitem (@nil A) i = Raise IndexError.
Proof.
  unfold py_getitem. simpl length.
  destruct (i <? 0) eqn:Hi.
  - replace (i + Z.of_nat 0 <? 0) with true by (symmetry; apply Z.ltb_lt; lia).
    reflexivity.
  - destruct (i <? 0) eqn:Hi'; [discriminate |].
    replace (Z.of_nat 0 <=? i) with true by (symmetry; apply Z.leb_le; lia).
    reflexivity.
Qed.

Lemma py_getitem_nat {A : Type} (l : list A) (i : nat) :
  py_getitem l (Z.of_nat i) =
  match l !! i with Some a => Ok a | None => Raise IndexError end.
Proof.
  assert (Hpos : (Z.of_nat i <? 0) = false) by (apply Z.ltb_ge; lia).
  unfold py_getitem. cbv zeta. rewrite Hpos. cbv iota. rewrite Hpos, Nat2Z.id.
  cbn [orb].
  destruct (Z.leb_spec (Z.of_nat (length l)) (Z.of_nat i)) as [Hge | Hlt].
  - rewrite (lookup_ge_None_2 l i) by lia. reflexivity.
  - reflexivity.
Qed.

Lemma py_getitem_at_0 {A : Type} (l : list A) :
  py_getitem l 0 = match l !! 0%nat with Some a => Ok a | None => Raise IndexError end.
Proof. apply (py_getitem_nat l 0). Qed.

Lemma py_getitem_at_1 {A : Type} (l : list A) :
  py_getitem l 1 = match l !! 1%nat with Some a => Ok a | None => Raise IndexError end.
Proof. apply (py_getitem_nat l 1). Qed.

Lemma py_getitem_0 {A : Type} (a : A) (l : list A) : py_getitem (a :: l) 0 = Ok a.
Proof. now rewrite py_getitem_at_0. Qed.

Lemma py_getitem_1 {A : Type} (a b : A) (l : list A) : py_getitem (a :: b :: l) 1 = Ok b.
Proof. now rewrite py_getitem_at_1. Qed.

Lemma get_command_context_empty (s : Shell) :
  history s = [] -> get_command_context s = (Ok (0, 0), s).
Proof.
  intros Hh. unfold get_command_context, bind, gets, ret. rewrite Hh. reflexivity.
Qed.

Lemma get_command_context_last (s : Shell) (c : HistoryEntry) :
  last (history s) = Some c -> get_command_context s = (entry_context c, s).
Proof.
  intros Hlast.
  unfold get_command_context, entry_context, bind, gets, ret, lift.
  destruct (history s) as [| c0 h] eqn:Hh; [discriminate |].
  rewrite (py_getitem_last _ _ Hlast). cbv beta iota delta [py_bool].
  destruct (py_getitem (ts c) 1) as [t1 | e1]; [| reflexivity].
  destruct (py_getitem (ts c) 0) as [t0 | e0]; [| reflexivity].
  destruct (py_round _) as [d | e]; reflexivity.
Qed.

(** The function only reads the shell. *)
Lemma get_command_context_pure (s : Shell) : snd (get_command_context s) = s.
Proof.
  destruct (last (history s)) as [c |] eqn:Hlast.
  - now rewrite (get_command_context_last _ _ Hlast).
  - apply last_None in Hlast. now rewrite (get_command_context_empty _ Hlast).
Qed.

Lemma get_command_context_eta (s : Shell) :
  get_command_context s = (fst (get_command_context s), s).
Proof.
  rewrite <- (get_command_context_pure s) at 3. now destruct (get_command_context s).
Qed.

(** Only the history is read, and of the history only its last entry. *)
Lemma context_of_history (s1 s2 : Shell) :
  last (history s1) = last (history s2) ->
  fst (get_command_context s1) = fst (get_command_context s2).
Proof.
  intros Hlast. destruct (last (history s2)) as [c |] eqn:H2.
  - now rewrite (get_command_context_last _ _ Hlast), (get_command_context_last _ _ H2).
  - apply last_None in Hlast, H2.
    now rewrite (get_command_context_empty _ Hlast), (get_command_context_empty _ H2).
Qed.

Lemma entry_context_ext (c1 c2 : HistoryEntry) :
  rtn c1 = rtn c2 ->
  ts c1 !! 0%nat = ts c2 !! 0%nat ->
  ts c1 !! 1%nat = ts c2 !! 1%nat ->
  entry_context c1 = entry_context c2.
Proof.
  intros Hrtn H0 H1. unfold entry_context.
  rewrite !py_getitem_at_1, !py_getitem_at_0, H0, H1.
  now rewrite Hrtn.
Qed.

Lemma frame_refl (s : Shell) : frame s s.
Proof. now repeat split. Qed.

Lemma frame_log_spawn (argv : list string) (s : Shell) : frame s (log_spawn argv s).
Proof. now repeat split. Qed.

Lemma frame_trans (s1 s2 s3 : Shell) : frame s1 s2 -> frame s2 s3 -> frame s1 s3.
Proof. unfold frame. intuition congruence. Qed.

Section ScriptFacts.

Variable uuid4_hex : nat -> string.
Variable captured_stdout : gmap string string -> list string -> string.

(** A prompt call that finds its context and its two variables spawns the
    renderer and returns the captured text as it is. *)
Lemma posh_primary_ok (s : Shell) (status duration : Z) (exe ver : string) :
  fst (get_command_context s) = Ok (status, duration) ->
  env s !! "POSH_EXECUTABLE" = Some exe ->
  env s !! "POSH_SHELL_VERSION" = Some ver ->
  posh_primary captured_stdout s =
    (Ok (captured_stdout (env s) (renderer_argv exe "primary" status duration ver)),
     log_spawn (renderer_argv exe "primary" status duration ver) s).
Proof.
  intros Hctx Hexe Hver. unfold posh_primary, bind.
  rewrite get_command_context_eta, Hctx. unfold getenv. now rewrite Hexe, Hver.
Qed.

Lemma posh_right_ok (s : Shell) (status duration : Z) (exe ver : string) :
  fst (get_command_context s) = Ok (status, duration) ->
  env s !! "POSH_EXECUTABLE" = Some exe ->
  env s !! "POSH_SHELL_VERSION" = Some ver ->
  posh_right captured_stdout s =
    (Ok (captured_stdout (env s) (renderer_argv exe "right" status duration ver)),
     log_spawn (renderer_argv exe "right" status duration ver) s).
Proof.
  intros Hctx Hexe Hver. unfold posh_right, bind.
  rewrite get_command_context_eta, Hctx. unfold getenv. now rewrite Hexe, Hver.
Qed.

(** The cases of a prompt call: the context raises, a variable is not
    set, or the renderer is spawned. *)
Ltac prompt_cases f f_ok s :=
  let Hctx := fresh "Hctx" in
  let Hexe := fresh "Hexe" in
  let Hver := fresh "Hver" in
  destruct (fst (get_command_context s)) as [[? ?] | ?] eqn:Hctx;
  [ destruct (env s !! "POSH_EXECUTABLE") as [? |] eqn:Hexe;
    [ destruct (env s !! "POSH_SHELL_VERSION") as [? |] eqn:Hver;
      [ rewrite (f_ok _ _ _ _ _ Hctx Hexe Hver); now constructor
      | unfold f, bind, getenv;
        rewrite get_command_context_eta, Hctx, Hexe, Hver; constructor ]
    | unfold f, bind, getenv;
      rewrite get_command_context_eta, Hctx, Hexe; constructor ]
  | unfold f, bind; rewrite get_command_context_eta, Hctx; constructor ].

Lemma posh_primary_effect (s : Shell) :
  prompt_effect captured_stdout "primary" s (posh_primary captured_stdout s).
Proof. prompt_cases posh_primary posh_primary_ok s. Qed.

Lemma posh_right_effect (s : Shell) :
  prompt_effect captured_stdout "right" s (posh_right captured_stdout s).
Proof. prompt_cases posh_right posh_right_ok s. Qed.

Lemma prompt_effect_frame (mode : string) (s : Shell) (out : result string * Shell) :
  prompt_effect captured_stdout mode s out -> frame s (snd out).
Proof. intros [e | status duration exe ver _ _ _]; [apply frame_refl | apply frame_log_spawn]. Qed.

Lemma context_raises_is_passed_on (s : Shell) (e : py_error) :
  fst (get_command_context s) = Raise e ->
  posh_primary captured_stdout s = (Raise e, s)
  /\ posh_right captured_stdout s = (Raise e, s).
Proof.
  intros Hctx. unfold posh_primary, posh_right, bind.
  rewrite get_command_context_eta, Hctx. split; reflexivity.
Qed.

Lemma context_is_passed (s : Shell) (status duration : Z) :
  fst (get_command_context s) = Ok (status, duration) ->
  both_prompts_pass captured_stdout s status duration.
Proof.
  intros Hctx exe ver Hexe Hver.
  rewrite (posh_primary_ok _ _ _ _ _ Hctx Hexe Hver).
  rewrite (posh_right_ok _ _ _ _ _ Hctx Hexe Hver).
  split; reflexivity.
Qed.

(** C1: while the history is empty, both prompt functions run the
    renderer with [--status=0] and [--execution-time=0]. *)
Theorem empty_history_passes_zeros (s : Shell) (exe ver : string) :
  history s = [] ->
  env s !! "POSH_EXECUTABLE" = Some exe ->
  env s !! "POSH_SHELL_VERSION" = Some ver ->
  spawned (snd (posh_primary captured_stdout s)) =
    (spawned s ++ [[exe; "print"; "primary"; "--shell=xonsh"; "--status=0";
                   "--execution-time=0"; "--shell-version=" +:+ ver]])%list
  /\ spawned (snd (posh_right captured_stdout s)) =
    (spawned s ++ [[exe; "print"; "right"; "--shell=xonsh"; "--status=0";
                   "--execution-time=0"; "--shell-version=" +:+ ver]])%list.
Proof.
  intros Hh Hexe Hver.
  assert (Hctx : fst (get_command_context s) = Ok (0, 0))
    by now rewrite (get_command_context_empty _ Hh).
  rewrite (posh_primary_ok _ _ _ _ _ Hctx Hexe Hver).
  rewrite (posh_right_ok _ _ _ _ _ Hctx Hexe Hver).
  split; reflexivity.
Qed.

(** C3: when the last entry of the history has return status 1 and
    timestamps [10.0, 10.5], the command context is status 1 and duration
    500, and the renderer is run with [--status=1] and
    [--execution-time=500]. *)
Theorem failed_command_of_half_a_second (s : Shell) (c : HistoryEntry) (exe ver : string) :
  last (history s) = Some c ->
  rtn c = 1 ->
  ts c = [float_10_0; float_10_5] ->
  env s !! "POSH_EXECUTABLE" = Some exe ->
  env s !! "POSH_SHELL_VERSION" = Some ver ->
  get_command_context s = (Ok (1, 500), s)
  /\ spawned (snd (posh_primary captured_stdout s)) =
    (spawned s ++ [[exe; "print"; "primary"; "--shell=xonsh"; "--status=1";
                   "--execution-time=500"; "--shell-version=" +:+ ver]])%list
  /\ spawned (snd (posh_right captured_stdout s)) =
    (spawned s ++ [[exe; "print"; "right"; "--shell=xonsh"; "--status=1";
                   "--execution-time=500"; "--shell-version=" +:+ ver]])%list.
Proof.
  intros Hlast Hrtn Hts Hexe Hver.
  assert (Hctx : get_command_context s = (Ok (1, 500), s)).
  { rewrite (get_command_context_last _ _ Hlast). unfold entry_context.
    rewrite Hts, Hrtn, py_getitem_1, py_getitem_0.
    replace (py_round (PyFloat.mul (PyFloat.sub float_10_5 float_10_0) (PyFloat.of_int 1000)))
      with (@Ok Z 500) by (vm_compute; reflexivity).
    reflexivity. }
  assert (Hfst : fst (get_command_context s) = Ok (1, 500)) by now rewrite Hctx.
  rewrite (posh_primary_ok _ _ _ _ _ Hfst Hexe Hver).
  rewrite (posh_right_ok _ _ _ _ _ Hfst Hexe Hver).
  split; [exact Hctx | split; reflexivity].
Qed.

(** C4: in one prompt draw the primary call passes the mode [primary] and
    the right call the mode [right], and the two command lines agree on
    every other argument: executable, shell tag, status, execution time
    and shell version. *)
Theorem draw_calls_differ_in_mode_only (s s' : Shell) (p r : string) :
  PROMPT s = Some fn_posh_primary ->
  RIGHT_PROMPT s = Some fn_posh_right ->
  draw_prompt captured_stdout s = ((Ok p, Ok r), s') ->
  exists (exe : string) (status duration : Z) (ver : string),
    spawned s' = (spawned s ++
      [[exe; "print"; "primary"; "--shell=xonsh"; "--status=" +:+ py_str status;
        "--execution-time=" +:+ py_str duration; "--shell-version=" +:+ ver];
       [exe; "print"; "right"; "--shell=xonsh"; "--status=" +:+ py_str status;
        "--execution-time=" +:+ py_str duration; "--shell-version=" +:+ ver]])%list.
Proof.
  intros Hp Hr. unfold draw_prompt. rewrite Hp. cbn [call_hook call].
  destruct (posh_primary_effect s) as [e | status duration exe ver Hctx Hexe Hver].
  { rewrite Hr. cbn [call_hook call].
    destruct (posh_right captured_stdout s); discriminate. }
  set (s1 := log_spawn _ s).
  replace (RIGHT_PROMPT s1) with (Some fn_posh_right) by (symmetry; exact Hr).
  cbn [call_hook call].
  assert (Hctx1 : fst (get_command_context s1) = Ok (status, duration))
    by (rewrite <- Hctx; now apply context_of_history).
  rewrite (posh_right_ok s1 _ _ _ _ Hctx1 Hexe Hver).
  intros Heq. injection Heq as _ _ <-.
  exists exe, status, duration, ver. subst s1. cbn [spawned log_spawn].
  now rewrite <- app_assoc.
Qed.

(** C9: two histories whose last entries agree on the return status and
    on both timestamps give the same status and duration; no earlier
    entry has a say. *)
Theorem last_entry_decides_context (s1 s2 : Shell) (c1 c2 : HistoryEntry) :
  last (history s1) = Some c1 ->
  last (history s2) = Some c2 ->
  rtn c1 = rtn c2 ->
  ts c1 !! 0%nat = ts c2 !! 0%nat ->
  ts c1 !! 1%nat = ts c2 !! 1%nat ->
  fst (get_command_context s1) = fst (get_command_context s2).
Proof.
  intros H1 H2 Hrtn Ht0 Ht1.
  rewrite (get_command_context_last _ _ H1), (get_command_context_last _ _ H2).
  cbn [fst]. now apply entry_context_ext.
Qed.

(** *** Sessions *)

Lemma call_hook_frame (hook : option callable) (s : Shell) :
  frame s (snd (call_hook captured_stdout hook s)).
Proof.
  destruct hook as [[|] |]; cbn [call_hook call].
  - apply (prompt_effect_frame "primary"), posh_primary_effect.
  - apply (prompt_effect_frame "right"), posh_right_effect.
  - apply frame_refl.
Qed.

Lemma prompt_effect_shaped (mode exe ver : string) (s : Shell) (out : result string * Shell) :
  mode = "primary" \/ mode = "right" ->
  env s !! "POSH_EXECUTABLE" = Some exe ->
  env s !! "POSH_SHELL_VERSION" = Some ver ->
  Forall (shaped exe ver) (spawned s) ->
  prompt_effect captured_stdout mode s out ->
  Forall (shaped exe ver) (spawned (snd out)).
Proof.
  intros Hmode Hexe Hver Hall [e | status duration exe' ver' _ Hexe' Hver']; [exact Hall |].
  cbn [snd spawned log_spawn]. apply Forall_app. split; [exact Hall |].
  apply Forall_cons. split; [| apply Forall_nil_2].
  assert (exe' = exe) as -> by congruence. assert (ver' = ver) as -> by congruence.
  now exists mode, status, duration.
Qed.

Lemma call_hook_shaped (hook : option callable) (exe ver : string) (s : Shell) :
  env s !! "POSH_EXECUTABLE" = Some exe ->
  env s !! "POSH_SHELL_VERSION" = Some ver ->
  Forall (shaped exe ver) (spawned s) ->
  Forall (shaped exe ver) (spawned (snd (call_hook captured_stdout hook s))).
Proof.
  intros Hexe Hver Hall. destruct hook as [[|] |]; cbn [call_hook call].
  - apply (prompt_effect_shaped "primary" exe ver s); auto. apply posh_primary_effect.
  - apply (prompt_effect_shaped "right" exe ver s); auto. apply posh_right_effect.
  - exact Hall.
Qed.

Lemma draw_prompt_snd (s : Shell) :
  snd (draw_prompt captured_stdout s) =
  snd (call_hook captured_stdout
         (RIGHT_PROMPT (snd (call_hook captured_stdout (PROMPT s) s)))
         (snd (call_hook captured_stdout (PROMPT s) s))).
Proof.
  unfold draw_prompt.
  destruct (call_hook captured_stdout (PROMPT s) s) as [p s1]. cbn [snd].
  now destruct (call_hook captured_stdout (RIGHT_PROMPT s1) s1).
Qed.

Lemma draw_prompt_frame (s : Shell) : frame s (snd (draw_prompt captured_stdout s)).
Proof.
  rewrite draw_prompt_snd.
  eapply frame_trans; apply call_hook_frame.
Qed.

Lemma draw_prompt_shaped (exe ver : string) (s : Shell) :
  env s !! "POSH_EXECUTABLE" = Some exe ->
  env s !! "POSH_SHELL_VERSION" = Some ver ->
  Forall (shaped exe ver) (spawned s) ->
  Forall (shaped exe ver) (spawned (snd (draw_prompt captured_stdout s))).
Proof.
  intros Hexe Hver Hall. rewrite draw_prompt_snd.
  destruct (call_hook_frame (PROMPT s) s) as (Henv & _).
  apply call_hook_shaped; [now rewrite Henv | now rewrite Henv |].
  now apply call_hook_shaped.
Qed.

Lemma host_step_kept (s : Shell) (ev : event) : kept s (host_step captured_stdout s ev).
Proof.
  destruct ev as [c |]; cbn [host_step].
  - now repeat split.
  - destruct (draw_prompt_frame s) as (? & ? & ? & ? & ?). now repeat split.
Qed.

Lemma run_kept (evs : list event) (s : Shell) : kept s (run captured_stdout evs s).
Proof.
  unfold run. revert s. induction evs as [| ev evs IH]; intros s; cbn [fold_left].
  - now repeat split.
  - specialize (IH (host_step captured_stdout s ev)).
    destruct (host_step_kept s ev) as (? & ? & ? & ?).
    destruct IH as (? & ? & ? & ?).
    unfold kept. intuition congruence.
Qed.

Lemma host_step_shaped (exe ver : string) (s : Shell) (ev : event) :
  env s !! "POSH_EXECUTABLE" = Some exe ->
  env s !! "POSH_SHELL_VERSION" = Some ver ->
  Forall (shaped exe ver) (spawned s) ->
  Forall (shaped exe ver) (spawned (host_step captured_stdout s ev)).
Proof.
  intros Hexe Hver Hall. destruct ev as [c |]; cbn [host_step].
  - exact Hall.
  - now apply draw_prompt_shaped.
Qed.

Lemma run_shaped (exe ver : string) (evs : list event) (s : Shell) :
  env s !! "POSH_EXECUTABLE" = Some exe ->
  env s !! "POSH_SHELL_VERSION" = Some ver ->
  Forall (shaped exe ver) (spawned s) ->
  Forall (shaped exe ver) (spawned (run captured_stdout evs s)).
Proof.
  unfold run. revert s.
  induction evs as [| ev evs IH]; intros s Hexe Hver Hall; cbn [fold_left].
  - exact Hall.
  - destruct (host_step_kept s ev) as (Henv & _).
    apply IH; [now rewrite Henv | now rewrite Henv | now apply host_step_shaped].
Qed.

(** The shell right after the script has loaded. *)
Lemma load_script_ok (host_env : gmap string string) (v : string) :
  host_env !! "XONSH_VERSION" = Some v ->
  load_script uuid4_hex (fresh_shell host_env) =
    (Ok tt,
     mkShell (<["POSH_EXECUTABLE" := "::OMP::"]>
                (<["POSH_SHELL_VERSION" := v]>
                   (<["POSH_PID" := uuid4_hex 0]>
                      (<["POSH_THEME" := "::CONFIG::"]>
                         (<["POWERLINE_COMMAND" := "OMP"]> host_env)))))
             (Some fn_posh_primary) (Some fn_posh_right) [] 1 []).
Proof.
  intros Hv. unfold load_script, bind, modify, uuid4, getenv, fresh_shell.
  cbn [env set_env count_uuid uuids_drawn].
  rewrite !lookup_insert_ne by discriminate. rewrite Hv. reflexivity.
Qed.

Lemma load_script_pid (host_env : gmap string string) :
  env (snd (load_script uuid4_hex (fresh_shell host_env))) !! "POSH_PID"
  = Some (uuid4_hex 0)
  /\ uuids_drawn (snd (load_script uuid4_hex (fresh_shell host_env))) = 1%nat.
Proof.
  unfold load_script, bind, modify, uuid4, getenv, fresh_shell.
  cbn [env set_env count_uuid uuids_drawn].
  destruct (_ !! "XONSH_VERSION"); cbn [snd env set_env set_PROMPT set_RIGHT_PROMPT
                                         uuids_drawn]; split; try reflexivity.
  - rewrite !lookup_insert_ne by discriminate. apply lookup_insert_eq.
  - apply lookup_insert_eq.
Qed.

(** A prompt call that returns did so with the text the renderer wrote
    under the environment of the shell. *)
Lemma prompt_effect_returns (mode : string) (s s' : Shell) (out : string) :
  prompt_effect captured_stdout mode s (Ok out, s') ->
  exists argv : list string,
    spawned s' = (spawned s ++ [argv])%list /\ out = captured_stdout (env s) argv.
Proof.
  intros H. inversion H as [| status duration exe ver _ _ _]; subst. eauto.
Qed.

(** C5: in a session every renderer call has the command line
    [<executable> print <primary|right> --shell=xonsh --status=<int>
    --execution-time=<int> --shell-version=<string>]; the executable and
    the theme are the ones set when the script was loaded, and the
    environment that holds them is the same at every later moment. *)
Theorem renderer_calls_have_fixed_shape
    (host_env : gmap string string) (v : string) (evs : list event) :
  host_env !! "XONSH_VERSION" = Some v ->
  Forall (fun argv : list string =>
            exists (mode : string) (status duration : Z),
              (mode = "primary" \/ mode = "right") /\
              argv = ["::OMP::"; "print"; mode; "--shell=xonsh";
                      "--status=" +:+ py_str status;
                      "--execution-time=" +:+ py_str duration;
                      "--shell-version=" +:+ v])
         (spawned (session uuid4_hex captured_stdout host_env evs))
  /\ env (session uuid4_hex captured_stdout host_env evs) =
     env (session uuid4_hex captured_stdout host_env [])
  /\ env (session uuid4_hex captured_stdout host_env evs) !! "POSH_EXECUTABLE"
     = Some "::OMP::"
  /\ env (session uuid4_hex captured_stdout host_env evs) !! "POSH_THEME"
     = Some "::CONFIG::".
Proof.
  intros Hv. unfold session. rewrite (load_script_ok _ _ Hv). cbn [snd].
  set (s0 := mkShell _ _ _ _ _ _).
  assert (Hexe : env s0 !! "POSH_EXECUTABLE" = Some "::OMP::")
    by apply lookup_insert_eq.
  assert (Hver : env s0 !! "POSH_SHELL_VERSION" = Some v).
  { cbn [env s0]. rewrite lookup_insert_ne by discriminate. apply lookup_insert_eq. }
  assert (Hthm : env s0 !! "POSH_THEME" = Some "::CONFIG::").
  { cbn [env s0]. rewrite !lookup_insert_ne by discriminate. apply lookup_insert_eq. }
  destruct (run_kept evs s0) as (Henv & _).
  split; [| split; [| split]].
  - apply (run_shaped "::OMP::" v evs s0 Hexe Hver). apply Forall_nil_2.
  - exact Henv.
  - now rewrite Henv.
  - now rewrite Henv.
Qed.

(** C8: the session identifier is drawn once, when the script is loaded;
    at every later moment of the session [$POSH_PID] holds that one value
    and no further UUID has been drawn; neither prompt function changes
    it, and every prompt call that returns has run the renderer under the
    environment that holds it. *)
Theorem session_identifier_is_drawn_once :
  (forall s : Shell,
      env (snd (posh_primary captured_stdout s)) !! "POSH_PID" = env s !! "POSH_PID"
      /\ uuids_drawn (snd (posh_primary captured_stdout s)) = uuids_drawn s
      /\ env (snd (posh_right captured_stdout s)) !! "POSH_PID" = env s !! "POSH_PID"
      /\ uuids_drawn (snd (posh_right captured_stdout s)) = uuids_drawn s)
  /\ (forall (host_env : gmap string string) (evs : list event),
        env (session uuid4_hex captured_stdout host_env evs) !! "POSH_PID"
        = Some (uuid4_hex 0)
        /\ uuids_drawn (session uuid4_hex captured_stdout host_env evs) = 1%nat)
  /\ (forall (host_env : gmap string string) (evs : list event)
             (f : callable) (out : string),
        fst (call captured_stdout f (session uuid4_hex captured_stdout host_env evs))
        = Ok out ->
        exists argv : list string,
          spawned (snd (call captured_stdout f
                          (session uuid4_hex captured_stdout host_env evs)))
          = (spawned (session uuid4_hex captured_stdout host_env evs) ++ [argv])%list
          /\ out = captured_stdout
                     (env (session uuid4_hex captured_stdout host_env evs)) argv).
Proof.
  split; [| split].
  - intros s.
    destruct (prompt_effect_frame _ _ _ (posh_primary_effect s)) as (Hp & _ & _ & _ & Hu).
    destruct (prompt_effect_frame _ _ _ (posh_right_effect s)) as (Hp' & _ & _ & _ & Hu').
    rewrite Hp, Hp'. auto.
  - intros host_env evs. unfold session.
    destruct (run_kept evs (snd (load_script uuid4_hex (fresh_shell host_env))))
      as (Henv & _ & _ & Huu).
    destruct (load_script_pid host_env) as (Hp0 & Hu0).
    rewrite Henv. split; congruence.
  - intros host_env evs f out.
    set (s := session uuid4_hex captured_stdout host_env evs).
    assert (Heff : exists mode : string,
               prompt_effect captured_stdout mode s (call captured_stdout f s)).
    { destruct f; cbn [call];
        [exists "primary"; apply posh_primary_effect
        | exists "right"; apply posh_right_effect]. }
    destruct Heff as [mode Heff].
    destruct (call captured_stdout f s) as [r s'] eqn:Hcall. cbn [fst snd].
    intros ->. now apply (prompt_effect_returns mode).
Qed.

End ScriptFacts.

(** ** Durations *)

Lemma py_round_finite (x : PyFloat.float) :
  PyFloat.is_finite x = true -> exists d : Z, py_round x = Ok d.
Proof.
  destruct x as [s | s | | s m e]; cbn [PyFloat.is_finite py_round]; intros H;
    try discriminate.
  - now exists 0.
  - destruct (0 <=? e); eexists; reflexivity.
Qed.

Lemma entry_context_at (c : HistoryEntry) (t0 t1 : PyFloat.float) :
  ts c !! 0%nat = Some t0 ->
  ts c !! 1%nat = Some t1 ->
  entry_context c =
  match py_round (PyFloat.mul (PyFloat.sub t1 t0) (PyFloat.of_int 1000)) with
  | Ok d => Ok (rtn c, d)
  | Raise e => Raise e
  end.
Proof.
  intros H0 H1. unfold entry_context.
  now rewrite py_getitem_at_1, H1, py_getitem_at_0, H0.
Qed.

(** C2 (as the code has it): the duration passed to the renderer is
    [(t1 - t0) * 1000], computed on binary64 floats, rounded to the nearest
    integer with a tie going to the even integer; whenever that product is
    finite the function returns it, and [t0 = 0.0], [t1 = 1.2345] yields
    1234. *)
Theorem duration_rounds_half_even
    (captured_stdout : gmap string string -> list string -> string)
    (s : Shell) (c : HistoryEntry) (t0 t1 : PyFloat.float) (num den : Z) :
  last (history s) = Some c ->
  ts c !! 0%nat = Some t0 ->
  ts c !! 1%nat = Some t1 ->
  PyFloat.to_ratio (PyFloat.mul (PyFloat.sub t1 t0) (PyFloat.of_int 1000))
    = Some (num, den) ->
  exists d : Z,
    get_command_context s = (Ok (rtn c, d), s)
    /\ both_prompts_pass captured_stdout s (rtn c) d
    /\ 2 * Z.abs (d * den - num) <= den
    /\ (2 * Z.abs (d * den - num) = den -> Z.even d = true)
    /\ (t0 = float_0_0 -> t1 = float_1_2345 -> d = 1234).
Proof.
  intros Hlast H0 H1 Hratio.
  destruct (py_round_nearest _ _ _ Hratio) as (d & Hd & Hnear & Heven).
  exists d.
  assert (Hctx : get_command_context s = (Ok (rtn c, d), s))
    by now rewrite (get_command_context_last _ _ Hlast), (entry_context_at _ _ _ H0 H1), Hd.
  split; [exact Hctx |].
  split; [apply context_is_passed; now rewrite Hctx |].
  repeat split; auto.
  intros -> ->.
  assert (Hsample : py_round (PyFloat.mul (PyFloat.sub float_1_2345 float_0_0)
                                          (PyFloat.of_int 1000)) = Ok 1234)
    by (vm_compute; reflexivity).
  congruence.
Qed.

(** C7 (as the code has it): the duration computed from the last entry
    and passed as [--execution-time] is a non-negative integer when the
    history is empty or its last entry did not end before it started,
    unless the difference in milliseconds is too large for a float: then
    it is the positive infinity, [round] raises [OverflowError], and
    neither prompt function runs the renderer. *)
Theorem duration_nonneg_when_end_not_before_start
    (captured_stdout : gmap string string -> list string -> string) (s : Shell) :
  end_not_before_start (history s) = true ->
  (scaled_difference_finite (history s) = true ->
   exists status d : Z,
     get_command_context s = (Ok (status, d), s)
     /\ both_prompts_pass captured_stdout s status d
     /\ 0 <= d)
  /\ (scaled_difference_finite (history s) = false ->
      get_command_context s = (Raise OverflowError, s)
      /\ spawned (snd (posh_primary captured_stdout s)) = spawned s
      /\ spawned (snd (posh_right captured_stdout s)) = spawned s
      /\ exists (c : HistoryEntry) (t0 t1 : PyFloat.float),
          last (history s) = Some c
          /\ ts c !! 0%nat = Some t0 /\ ts c !! 1%nat = Some t1
          /\ PyFloat.mul (PyFloat.sub t1 t0) (PyFloat.of_int 1000)
             = S754_infinity false).
Proof.
  unfold end_not_before_start, scaled_difference_finite. intros H.
  destruct (last (history s)) as [c |] eqn:Hlast.
  - destruct (ts c !! 0%nat) as [t0 |] eqn:H0; [| discriminate].
    destruct (ts c !! 1%nat) as [t1 |] eqn:H1; [| discriminate].
    repeat (apply andb_true_iff in H as [H ?]).
    assert (Hs : signed false (PyFloat.mul (PyFloat.sub t1 t0) (PyFloat.of_int 1000)))
      by now apply mul_1000_signed, sub_signed.
    assert (Hctx : get_command_context s = (entry_context c, s))
      by apply (get_command_context_last _ _ Hlast).
    rewrite (entry_context_at _ _ _ H0 H1) in Hctx.
    destruct (py_round_signed_cases false _ Hs) as [Hfin Hinf].
    split; intros Hf.
    + destruct (Hfin Hf) as (d & Hd & Hpos). rewrite Hd in Hctx.
      exists (rtn c), d. split; [exact Hctx |]. split; [| exact Hpos].
      apply context_is_passed. now rewrite Hctx.
    + destruct (Hinf Hf) as (Hx & Hd). rewrite Hd in Hctx.
      assert (Hraise : fst (get_command_context s) = Raise OverflowError)
        by now rewrite Hctx.
      destruct (context_raises_is_passed_on captured_stdout s _ Hraise) as [-> ->].
      repeat split; try assumption. now exists c, t0, t1.
  - apply last_None in Hlast.
    assert (Hctx : get_command_context s = (Ok (0, 0), s))
      by apply (get_command_context_empty _ Hlast).
    split; [intros _ | discriminate].
    exists 0, 0. split; [exact Hctx |]. split; [| lia].
    apply context_is_passed. now rewrite Hctx.
Qed.

(** C10 (as the code has it): on an empty history the function returns
    [(0, 0)], and on a history whose last entry has two timestamps with a
    finite difference in milliseconds it returns a status and a duration;
    it raises in neither case and leaves the shell as it was. *)
Theorem context_total_when_difference_finite (s : Shell) :
  scaled_difference_finite (history s) = true ->
  exists status d : Z,
    get_command_context s = (Ok (status, d), s)
    /\ (history s = [] -> status = 0 /\ d = 0).
Proof.
  unfold scaled_difference_finite. intros H.
  destruct (last (history s)) as [c |] eqn:Hlast.
  - destruct (ts c !! 0%nat) as [t0 |] eqn:H0; [| discriminate].
    destruct (ts c !! 1%nat) as [t1 |] eqn:H1; [| discriminate].
    destruct (py_round_finite _ H) as [d Hd].
    exists (rtn c), d.
    rewrite (get_command_context_last _ _ Hlast), (entry_context_at _ _ _ H0 H1), Hd.
    split; [reflexivity |]. intros Hnil. rewrite Hnil in Hlast. discriminate.
  - apply last_None in Hlast. exists 0, 0.
    now rewrite (get_command_context_empty _ Hlast).
Qed.

(** ** Where the specification and the script part *)

(** C2 as stated fails: for [t0 = 0.0] and [t1 = 1.2345] the product is
    exactly 1234.5, which rounding half up takes to 1235 and the script
    to 1234. *)
Lemma half_up_rounding_refuted :
  fst (get_command_context
         (sample_session [Executed (mkEntry "make" 0 [float_0_0; float_1_2345])]))
    = Ok (0, 1234)
  /\ spawned (snd (posh_primary sample_stdout
                     (sample_session [Executed (mkEntry "make" 0 [float_0_0; float_1_2345])])))
     = [["::OMP::"; "print"; "primary"; "--shell=xonsh"; "--status=0";
         "--execution-time=1234"; "--shell-version=0.14.0"]]
  /\ PyFloat.to_ratio (PyFloat.mul (PyFloat.sub float_1_2345 float_0_0) (PyFloat.of_int 1000))
     = Some (5429388417957888, 4398046511104)
  /\ 2 * 5429388417957888 = 2469 * 4398046511104
  /\ py_round_half_up
       (PyFloat.mul (PyFloat.sub float_1_2345 float_0_0) (PyFloat.of_int 1000))
     = Some 1235.
Proof. vm_compute. repeat split; reflexivity. Qed.

(** C7 as stated fails: an entry that ends half a second before it starts
    has the duration -500. *)
Lemma negative_duration_reached :
  fst (get_command_context
         (sample_session [Executed (mkEntry "date" 0 [float_10_5; float_10_0])]))
    = Ok (0, -500)
  /\ -500 < 0
  /\ spawned (snd (posh_primary sample_stdout
                     (sample_session [Executed (mkEntry "date" 0 [float_10_5; float_10_0])])))
     = [["::OMP::"; "print"; "primary"; "--shell=xonsh"; "--status=0";
         "--execution-time=-500"; "--shell-version=0.14.0"]].
Proof. vm_compute. repeat split; reflexivity. Qed.

(** C10 as stated fails: the last entry has a return status and two
    timestamps, the finite floats [0.0] and [2^1023], and the function
    raises [OverflowError]. *)
Lemma two_timestamps_can_overflow :
  has_two_timestamps
    (history (sample_session
                [Executed (mkEntry "sleep" 0 [float_0_0; PyFloat.of_dyadic 1 1023])]))
    = true
  /\ PyFloat.valid (PyFloat.of_dyadic 1 1023) = true
  /\ PyFloat.is_finite (PyFloat.of_dyadic 1 1023) = true
  /\ PyFloat.to_ratio (PyFloat.of_dyadic 1 1023) = Some (2 ^ 1023, 1)
  /\ fst (get_command_context
            (sample_session
               [Executed (mkEntry "sleep" 0 [float_0_0; PyFloat.of_dyadic 1 1023])]))
     = Raise OverflowError.
Proof. vm_compute. repeat split; reflexivity. Qed.

(** ** The statements at work on the sample session *)

Lemma empty_history_passes_zeros_witness :
  history (sample_session []) = []
  /\ spawned (snd (posh_primary sample_stdout (sample_session []))) =
     [["::OMP::"; "print"; "primary"; "--shell=xonsh"; "--status=0";
       "--execution-time=0"; "--shell-version=0.14.0"]]
  /\ spawned (snd (posh_right sample_stdout (sample_session []))) =
     [["::OMP::"; "print"; "right"; "--shell=xonsh"; "--status=0";
       "--execution-time=0"; "--shell-version=0.14.0"]].
Proof.
  split; [reflexivity |].
  apply (empty_history_passes_zeros sample_stdout (sample_session []) "::OMP::" "0.14.0");
    vm_compute; reflexivity.
Defined.

Lemma failed_command_of_half_a_second_witness :
  get_command_context (sample_session [Executed failed_entry])
  = (Ok (1, 500), sample_session [Executed failed_entry])
  /\ spawned (snd (posh_primary sample_stdout (sample_session [Executed failed_entry]))) =
     [["::OMP::"; "print"; "primary"; "--shell=xonsh"; "--status=1";
       "--execution-time=500"; "--shell-version=0.14.0"]]
  /\ spawned (snd (posh_right sample_stdout (sample_session [Executed failed_entry]))) =
     [["::OMP::"; "print"; "right"; "--shell=xonsh"; "--status=1";
       "--execution-time=500"; "--shell-version=0.14.0"]].
Proof.
  apply (failed_command_of_half_a_second sample_stdout
           (sample_session [Executed failed_entry]) failed_entry "::OMP::" "0.14.0");
    vm_compute; reflexivity.
Defined.

Lemma draw_calls_differ_in_mode_only_witness :
  exists (exe : string) (status duration : Z) (ver : string),
    spawned (snd (draw_prompt sample_stdout (sample_session [Executed failed_entry]))) =
    (spawned (sample_session [Executed failed_entry]) ++
     [[exe; "print"; "primary"; "--shell=xonsh"; "--status=" +:+ py_str status;
       "--execution-time=" +:+ py_str duration; "--shell-version=" +:+ ver];
      [exe; "print"; "right"; "--shell=xonsh"; "--status=" +:+ py_str status;
       "--execution-time=" +:+ py_str duration; "--shell-version=" +:+ ver]])%list.
Proof.
  apply (draw_calls_differ_in_mode_only sample_stdout
           (sample_session [Executed failed_entry])
           (snd (draw_prompt sample_stdout (sample_session [Executed failed_entry])))
           "primary> " "right> ");
    vm_compute; reflexivity.
Defined.

Lemma last_entry_decides_context_witness :
  fst (get_command_context (sample_session [Executed tie_entry; Draw; Executed failed_entry]))
  = fst (get_command_context (sample_session [Executed (mkEntry "exit 1" 1 (ts failed_entry))])).
Proof.
  apply (last_entry_decides_context
           (sample_session [Executed tie_entry; Draw; Executed failed_entry])
           (sample_session [Executed (mkEntry "exit 1" 1 (ts failed_entry))])
           failed_entry (mkEntry "exit 1" 1 (ts failed_entry)));
    vm_compute; reflexivity.
Defined.

Lemma renderer_calls_have_fixed_shape_witness :
  sample_env !! "XONSH_VERSION" = Some "0.14.0"
  /\ length (spawned (sample_session [Draw; Executed failed_entry; Draw])) = 4%nat
  /\ Forall (fun argv : list string =>
               exists (mode : string) (status duration : Z),
                 (mode = "primary" \/ mode = "right") /\
                 argv = ["::OMP::"; "print"; mode; "--shell=xonsh";
                         "--status=" +:+ py_str status;
                         "--execution-time=" +:+ py_str duration;
                         "--shell-version=" +:+ "0.14.0"])
            (spawned (sample_session [Draw; Executed failed_entry; Draw])).
Proof.
  split; [vm_compute; reflexivity |].
  split; [vm_compute; reflexivity |].
  apply (renderer_calls_have_fixed_shape sample_uuid sample_stdout sample_env "0.14.0"
           [Draw; Executed failed_entry; Draw]).
  vm_compute; reflexivity.
Defined.

Lemma duration_rounds_half_even_witness :
  exists d : Z,
    get_command_context (sample_session [Executed tie_entry])
    = (Ok (0, d), sample_session [Executed tie_entry])
    /\ both_prompts_pass sample_stdout (sample_session [Executed tie_entry]) 0 d
    /\ 2 * Z.abs (d * 4398046511104 - 5429388417957888) <= 4398046511104
    /\ (2 * Z.abs (d * 4398046511104 - 5429388417957888) = 4398046511104 ->
        Z.even d = true)
    /\ (float_0_0 = float_0_0 -> float_1_2345 = float_1_2345 -> d = 1234).
Proof.
  apply (duration_rounds_half_even sample_stdout
           (sample_session [Executed tie_entry]) tie_entry
           float_0_0 float_1_2345 5429388417957888 4398046511104);
    vm_compute; reflexivity.
Defined.

Lemma duration_nonneg_when_end_not_before_start_witness :
  (end_not_before_start (history (sample_session [Executed failed_entry])) = true
   /\ scaled_difference_finite (history (sample_session [Executed failed_entry])) = true
   /\ exists status d : Z,
       get_command_context (sample_session [Executed failed_entry])
       = (Ok (status, d), sample_session [Executed failed_entry])
       /\ both_prompts_pass sample_stdout
            (sample_session [Executed failed_entry]) status d
       /\ 0 <= d)
  /\ (end_not_before_start (history (sample_session [Executed overflow_entry])) = true
      /\ scaled_difference_finite (history (sample_session [Executed overflow_entry]))
         = false
      /\ get_command_context (sample_session [Executed overflow_entry])
         = (Raise OverflowError, sample_session [Executed overflow_entry])
      /\ spawned (snd (posh_primary sample_stdout
                         (sample_session [Executed overflow_entry])))
         = spawned (sample_session [Executed overflow_entry])).
Proof.
  assert (H1 : end_not_before_start (history (sample_session [Executed failed_entry]))
               = true) by (vm_compute; reflexivity).
  assert (F1 : scaled_difference_finite (history (sample_session [Executed failed_entry]))
               = true) by (vm_compute; reflexivity).
  assert (H2 : end_not_before_start (history (sample_session [Executed overflow_entry]))
               = true) by (vm_compute; reflexivity).
  assert (F2 : scaled_difference_finite (history (sample_session [Executed overflow_entry]))
               = false) by (vm_compute; reflexivity).
  split.
  - split; [exact H1 | split; [exact F1 |]].
    exact (proj1 (duration_nonneg_when_end_not_before_start sample_stdout _ H1) F1).
  - split; [exact H2 | split; [exact F2 |]].
    destruct (proj2 (duration_nonneg_when_end_not_before_start sample_stdout _ H2) F2)
      as (Hraise & Hspawn & _).
    split; [exact Hraise | exact Hspawn].
Defined.

Lemma context_total_when_difference_finite_witness :
  scaled_difference_finite (history (sample_session [Executed failed_entry])) = true
  /\ exists status d : Z,
      get_command_context (sample_session [Executed failed_entry])
      = (Ok (status, d), sample_session [Executed failed_entry])
      /\ (history (sample_session [Executed failed_entry]) = [] -> status = 0 /\ d = 0).
Proof.
  split; [vm_compute; reflexivity |].
  apply (context_total_when_difference_finite (sample_session [Executed failed_entry])).
  vm_compute; reflexivity.
Defined.

(** * Further properties of the script *)

(** ** Swapping the two timestamps *)

Lemma binary_round_aux_opp (s : bool) (m e : Z) (l : location) :
  binary_round_aux PyFloat.prec PyFloat.emax (negb s) m e l
  = SFopp (binary_round_aux PyFloat.prec PyFloat.emax s m e l).
Proof.
  unfold binary_round_aux.
  destruct (shr_fexp PyFloat.prec PyFloat.emax m e l) as [mrs' e'].
  destruct (shr_fexp PyFloat.prec PyFloat.emax _ e' loc_Exact) as [mrs'' e''].
  destruct (shr_m mrs'') as [| p | p]; try reflexivity.
  destruct (e'' <=? PyFloat.emax - PyFloat.prec); reflexivity.
Qed.

Lemma binary_normalize_opp (m e : Z) :
  m <> 0 ->
  binary_normalize PyFloat.prec PyFloat.emax (- m) e false
  = SFopp (binary_normalize PyFloat.prec PyFloat.emax m e false).
Proof.
  intros Hm. destruct m as [| p | p]; [contradiction | |].
  all: try change (- Z.pos p) with (Z.neg p); try change (- Z.neg p) with (Z.pos p).
  all: unfold binary_normalize, binary_round; destruct (shl_align _ _ _) as [mz ez].
  - apply (binary_round_aux_opp false).
  - apply (binary_round_aux_opp true).
Qed.

Lemma sub_swap (x y : PyFloat.float) : opposite (PyFloat.sub x y) (PyFloat.sub y x).
Proof.
  unfold opposite, PyFloat.sub.
  destruct x as [sx | sx | | sx mx ex], y as [sy | sy | | sy my ey]; cbn [SFsub];
    try (left; reflexivity);
    try (destruct sx, sy; (left; reflexivity) || (right; exact I)).
  rewrite (Z.min_comm ey ex).
  set (a := cond_Zopp sx _). set (b := cond_Zopp sy _).
  destruct (Z.eq_dec (a - b) 0) as [Heq | Hne].
  - right. replace (b - a) with 0 by lia. rewrite Heq. exact I.
  - left. replace (b - a) with (- (a - b)) by lia. now apply binary_normalize_opp.
Qed.

Lemma mul_opposite (x y c : PyFloat.float) :
  opposite x y -> opposite (PyFloat.mul x c) (PyFloat.mul y c).
Proof.
  unfold opposite, PyFloat.mul. intros [-> | Hz].
  - left. destruct x as [sx | sx | | sx mx ex], c as [sc | sc | | sc mc ec];
      cbn [SFmul SFopp]; try reflexivity;
      try (now destruct sx, sc).
    replace (xorb (negb sx) sc) with (negb (xorb sx sc)) by now destruct sx, sc.
    apply binary_round_aux_opp.
  - destruct x as [sx | | |], y as [sy | | |]; try contradiction.
    destruct c as [sc | sc | | sc mc ec]; cbn [SFmul]; auto.
Qed.

Lemma nearest_ties_even_opp (num den d : Z) :
  nearest_ties_even num den d -> nearest_ties_even (- num) den (- d).
Proof.
  unfold nearest_ties_even. intros [Hn He].
  replace (- d * den - - num) with (- (d * den - num)) by lia.
  rewrite Z.abs_opp, Z.even_opp. auto.
Qed.

Lemma round_half_even_opp (num den : Z) :
  0 < den -> round_half_even (- num) den = - round_half_even num den.
Proof.
  intros Hden. apply (nearest_ties_even_unique (- num) den); auto.
  - now apply round_half_even_nearest.
  - now apply nearest_ties_even_opp, round_half_even_nearest.
Qed.

Lemma py_round_opposite (x y : PyFloat.float) :
  opposite x y ->
  py_round y = match py_round x with Ok d => Ok (- d) | Raise e => Raise e end.
Proof.
  intros [-> | Hz].
  - destruct x as [s | s | | s m e]; cbn [SFopp py_round]; try reflexivity.
    replace (cond_Zopp (negb s) (Z.pos m)) with (- cond_Zopp s (Z.pos m))
      by (destruct s; reflexivity).
    destruct (Z.leb_spec 0 e) as [Hpos | Hneg].
    + now rewrite Z.mul_opp_l.
    + f_equal. apply round_half_even_opp. apply Z.pow_pos_nonneg; lia.
  - destruct x as [sx | | |], y as [sy | | |]; try contradiction. reflexivity.
Qed.

Lemma entry_context_swapped (c c' : HistoryEntry) (t0 t1 : PyFloat.float) :
  ts c !! 0%nat = Some t0 -> ts c !! 1%nat = Some t1 ->
  ts c' !! 0%nat = Some t1 -> ts c' !! 1%nat = Some t0 ->
  entry_context c' = negated (rtn c') (entry_context c).
Proof.
  intros H0 H1 H0' H1'.
  rewrite (entry_context_at _ _ _ H0 H1), (entry_context_at _ _ _ H0' H1').
  rewrite (py_round_opposite _ _ (mul_opposite _ _ (PyFloat.of_int 1000) (sub_swap t1 t0))).
  now destruct (py_round _).
Qed.

(** X1: an entry with its two timestamps exchanged gets the opposite
    duration: where the one gives [d] the other gives [- d], and where the
    one raises the other raises the same error. *)
Theorem swapped_timestamps_negate_duration
    (s s' : Shell) (c c' : HistoryEntry) (t0 t1 : PyFloat.float) :
  last (history s) = Some c ->
  last (history s') = Some c' ->
  ts c !! 0%nat = Some t0 -> ts c !! 1%nat = Some t1 ->
  ts c' !! 0%nat = Some t1 -> ts c' !! 1%nat = Some t0 ->
  fst (get_command_context s') = negated (rtn c') (fst (get_command_context s)).
Proof.
  intros Hl Hl' H0 H1 H0' H1'.
  rewrite (get_command_context_last _ _ Hl), (get_command_context_last _ _ Hl').
  cbn [fst]. now apply (entry_context_swapped c c' t0 t1).
Qed.

Lemma sub_diag_zero (t : PyFloat.float) :
  PyFloat.is_finite t = true -> exists sg : bool, PyFloat.sub t t = S754_zero sg.
Proof.
  destruct t as [sg | sg | | sg m e]; intros Hf; try discriminate;
    unfold PyFloat.sub; cbn [SFsub].
  - destruct sg; eexists; reflexivity.
  - rewrite Z.sub_diag. eexists. reflexivity.
Qed.

(** X2: a command whose start and end timestamps are the same finite
    float has the duration 0, whatever that float is. *)
Theorem equal_timestamps_give_zero (s : Shell) (c : HistoryEntry) (t : PyFloat.float) :
  last (history s) = Some c ->
  ts c !! 0%nat = Some t -> ts c !! 1%nat = Some t ->
  PyFloat.is_finite t = true ->
  get_command_context s = (Ok (rtn c, 0), s).
Proof.
  intros Hl H0 H1 Hf.
  rewrite (get_command_context_last _ _ Hl), (entry_context_at _ _ _ H0 H1).
  destruct (sub_diag_zero t Hf) as [sg ->]. reflexivity.
Qed.

Lemma opposite_signed (sg : bool) (x y : PyFloat.float) :
  opposite x y -> signed sg x -> signed (negb sg) y.
Proof.
  intros [-> | Hz] Hs.
  - destruct x as [s | s | | s m e]; cbn [SFopp signed] in *; congruence.
  - destruct x as [sx | | |], y as [sy | | |]; try contradiction. exact I.
Qed.

(** X3: when the last entry ends no later than it starts, the duration is
    zero or negative, unless the difference in milliseconds is too large
    for a float: then it is the negative infinity and [round] raises
    [OverflowError]. *)
Theorem duration_nonpos_when_end_not_after_start
    (s : Shell) (c : HistoryEntry) (t0 t1 : PyFloat.float) :
  last (history s) = Some c ->
  ts c !! 0%nat = Some t0 -> ts c !! 1%nat = Some t1 ->
  PyFloat.valid t0 = true -> PyFloat.valid t1 = true ->
  PyFloat.is_finite t0 = true -> PyFloat.is_finite t1 = true ->
  PyFloat.leb t1 t0 = true ->
  (PyFloat.is_finite (PyFloat.mul (PyFloat.sub t1 t0) (PyFloat.of_int 1000)) = true ->
   exists d : Z, get_command_context s = (Ok (rtn c, d), s) /\ d <= 0)
  /\ (PyFloat.is_finite (PyFloat.mul (PyFloat.sub t1 t0) (PyFloat.of_int 1000)) = false ->
      PyFloat.mul (PyFloat.sub t1 t0) (PyFloat.of_int 1000) = S754_infinity true
      /\ get_command_context s = (Raise OverflowError, s)).
Proof.
  intros Hl H0 H1 V0 V1 F0 F1 Hle.
  rewrite (get_command_context_last _ _ Hl), (entry_context_at _ _ _ H0 H1).
  assert (Hs' : signed false (PyFloat.mul (PyFloat.sub t0 t1) (PyFloat.of_int 1000)))
    by now apply mul_1000_signed, sub_signed.
  pose proof (opposite_signed false _ _
                (mul_opposite _ _ (PyFloat.of_int 1000) (sub_swap t0 t1)) Hs') as Hs.
  cbn [negb] in Hs.
  destruct (py_round_signed_cases true _ Hs) as [Hfin Hinf].
  split; intros Hf.
  - destruct (Hfin Hf) as (d & -> & Hd). now exists d.
  - destruct (Hinf Hf) as (Hx & ->). now split.
Qed.

(** ** When [get_command_context] raises *)

Lemma py_round_raises (x : PyFloat.float) (e : py_error) :
  py_round x = Raise e <->
  ((exists sg : bool, x = S754_infinity sg) /\ e = OverflowError)
  \/ (x = S754_nan /\ e = ValueError).
Proof.
  destruct x as [sg | sg | | sg m ex]; cbn [py_round]; split.
  - discriminate.
  - intros [[[? ?] _] | [? _]]; discriminate.
  - intros [= <-]. left. eauto.
  - intros [[_ ->] | [? _]]; [reflexivity | discriminate].
  - intros [= <-]. now right.
  - intros [[[? ?] _] | [_ ->]]; [discriminate | reflexivity].
  - destruct (0 <=? ex); discriminate.
  - intros [[[? ?] _] | [? _]]; discriminate.
Qed.

Lemma entry_context_short (c : HistoryEntry) :
  (length (ts c) < 2)%nat -> entry_context c = Raise IndexError.
Proof.
  intros Hlen. unfold entry_context.
  rewrite py_getitem_at_1, (lookup_ge_None_2 (ts c) 1) by lia. reflexivity.
Qed.

(** X4: [get_command_context] raises only on a history that is not empty,
    and then in three cases: [IndexError] when the last entry has fewer
    than two timestamps, [OverflowError] when their difference in
    milliseconds is infinite, [ValueError] when it is not a number. *)
Theorem context_raises_iff (s : Shell) (e : py_error) :
  fst (get_command_context s) = Raise e <->
  exists c : HistoryEntry,
    last (history s) = Some c /\
    (((length (ts c) < 2)%nat /\ e = IndexError)
     \/ exists t0 t1 : PyFloat.float,
         ts c !! 0%nat = Some t0 /\ ts c !! 1%nat = Some t1 /\
         (((exists sg : bool,
               PyFloat.mul (PyFloat.sub t1 t0) (PyFloat.of_int 1000) = S754_infinity sg)
           /\ e = OverflowError)
          \/ (PyFloat.mul (PyFloat.sub t1 t0) (PyFloat.of_int 1000) = S754_nan
              /\ e = ValueError))).
Proof.
  destruct (last (history s)) as [c |] eqn:Hlast.
  - rewrite (get_command_context_last _ _ Hlast). cbn [fst].
    destruct (ts c !! 1%nat) as [t1 |] eqn:H1.
    + destruct (ts c !! 0%nat) as [t0 |] eqn:H0.
      * rewrite (entry_context_at _ _ _ H0 H1).
        pose proof (py_round_raises
                      (PyFloat.mul (PyFloat.sub t1 t0) (PyFloat.of_int 1000)) e) as Hr.
        split.
        -- intros He. exists c. split; [reflexivity |]. right. exists t0, t1.
           repeat split; auto. apply Hr. destruct (py_round _); congruence.
        -- intros (c' & [= <-] & [[Hlen _] | (t0' & t1' & E0 & E1 & Hcase)]).
           ++ apply lookup_lt_Some in H1. lia.
           ++ assert (t0' = t0) as -> by congruence.
              assert (t1' = t1) as -> by congruence.
              apply Hr in Hcase. now rewrite Hcase.
      * apply lookup_ge_None in H0. apply lookup_lt_Some in H1. lia.
    + apply lookup_ge_None in H1.
      rewrite (entry_context_short c) by lia. split.
      * intros [= <-]. exists c. split; [reflexivity |]. left. split; [lia | reflexivity].
      * intros (c' & [= <-] & [[_ ->] | (t0' & t1' & _ & E1 & _)]); [reflexivity |].
        apply lookup_lt_Some in E1. lia.
  - apply last_None in Hlast. rewrite (get_command_context_empty _ Hlast). cbn [fst].
    split; [discriminate |]. intros (c & Hc & _). discriminate.
Qed.

Section MoreScriptFacts.

Variable uuid4_hex : nat -> string.
Variable captured_stdout : gmap string string -> list string -> string.

(** ** What a prompt call does *)

Lemma call_effect (f : callable) (s : Shell) :
  prompt_effect captured_stdout (mode_of f) s (call captured_stdout f s).
Proof. destruct f; [apply posh_primary_effect | apply posh_right_effect]. Qed.

Lemma call_unfold (f : callable) (s : Shell) :
  call captured_stdout f s =
  match fst (get_command_context s) with
  | Raise e => (Raise e, s)
  | Ok (status, duration) =>
      match env s !! "POSH_EXECUTABLE" with
      | None => (Raise (KeyError "POSH_EXECUTABLE"), s)
      | Some exe =>
          match env s !! "POSH_SHELL_VERSION" with
          | None => (Raise (KeyError "POSH_SHELL_VERSION"), s)
          | Some ver =>
              (Ok (captured_stdout (env s)
                     (renderer_argv exe (mode_of f) status duration ver)),
               log_spawn (renderer_argv exe (mode_of f) status duration ver) s)
          end
      end
  end.
Proof.
  destruct f; cbn [call mode_of]; unfold posh_primary, posh_right, bind, getenv;
    rewrite get_command_context_eta; cbn [fst];
    destruct (fst (get_command_context s)) as [[status duration] | e]; try reflexivity;
    destruct (env s !! "POSH_EXECUTABLE"); try reflexivity;
    destruct (env s !! "POSH_SHELL_VERSION"); reflexivity.
Qed.

(** X5: before it starts the renderer a prompt function raises in three
    cases, tried in this order: the command context raises, and the error
    is that one; [$POSH_EXECUTABLE] is not set; [$POSH_SHELL_VERSION] is
    not set, a [KeyError] naming the variable.  In each of them nothing
    is spawned and the shell is left as it was. *)
Theorem prompt_call_raises_before_spawn (f : callable) (s : Shell) :
  (forall e : py_error,
      fst (get_command_context s) = Raise e ->
      call captured_stdout f s = (Raise e, s))
  /\ (forall ctx : Z * Z,
        fst (get_command_context s) = Ok ctx ->
        env s !! "POSH_EXECUTABLE" = None ->
        call captured_stdout f s = (Raise (KeyError "POSH_EXECUTABLE"), s))
  /\ (forall (ctx : Z * Z) (exe : string),
        fst (get_command_context s) = Ok ctx ->
        env s !! "POSH_EXECUTABLE" = Some exe ->
        env s !! "POSH_SHELL_VERSION" = None ->
        call captured_stdout f s = (Raise (KeyError "POSH_SHELL_VERSION"), s)).
Proof.
  rewrite call_unfold. repeat split.
  - intros e ->. reflexivity.
  - intros [status duration] -> ->. reflexivity.
  - intros [status duration] exe -> -> ->. reflexivity.
Qed.

(** X6: a prompt function that returns has spawned one process, with the
    mode word of the function in third place, and returns the text
    captured from it as it is; the environment, the hooks, the history and
    the count of UUIDs drawn are as before. *)
Theorem prompt_call_returns (f : callable) (s : Shell) (out : string) :
  fst (call captured_stdout f s) = Ok out ->
  exists argv : list string,
    spawned (snd (call captured_stdout f s)) = (spawned s ++ [argv])%list
    /\ out = captured_stdout (env s) argv
    /\ argv !! 2%nat = Some (mode_of f)
    /\ length argv = 7%nat
    /\ frame s (snd (call captured_stdout f s)).
Proof.
  rewrite call_unfold.
  destruct (fst (get_command_context s)) as [[status duration] | e0]; [| discriminate].
  destruct (env s !! "POSH_EXECUTABLE") as [exe |]; [| discriminate].
  destruct (env s !! "POSH_SHELL_VERSION") as [ver |]; [| discriminate].
  cbn [fst snd]. intros [= <-].
  exists (renderer_argv exe (mode_of f) status duration ver).
  repeat split; reflexivity.
Qed.

(** X7: the command line tells the command context: two calls of a prompt
    function that spawn the same command line had the same status and the
    same duration. *)
Theorem command_line_determines_context (f : callable) (s1 s2 : Shell) (o1 o2 : string) :
  fst (call captured_stdout f s1) = Ok o1 ->
  fst (call captured_stdout f s2) = Ok o2 ->
  last (spawned (snd (call captured_stdout f s1)))
  = last (spawned (snd (call captured_stdout f s2))) ->
  fst (get_command_context s1) = fst (get_command_context s2).
Proof.
  rewrite !call_unfold.
  destruct (fst (get_command_context s1)) as [[st1 d1] | e1]; [| discriminate].
  destruct (fst (get_command_context s2)) as [[st2 d2] | e2];
    [| destruct (env s1 !! "POSH_EXECUTABLE"); [| discriminate];
       destruct (env s1 !! "POSH_SHELL_VERSION"); discriminate].
  destruct (env s1 !! "POSH_EXECUTABLE") as [exe1 |]; [| discriminate].
  destruct (env s1 !! "POSH_SHELL_VERSION") as [ver1 |]; [| discriminate].
  destruct (env s2 !! "POSH_EXECUTABLE") as [exe2 |]; [| discriminate].
  destruct (env s2 !! "POSH_SHELL_VERSION") as [ver2 |]; [| discriminate].
  cbn [fst snd spawned log_spawn]. intros _ _. rewrite !last_snoc.
  unfold renderer_argv. intros [= _ Hst Hd _].
  change (py_str st1 = py_str st2) in Hst. change (py_str d1 = py_str d2) in Hd.
  apply (inj pretty) in Hst. apply (inj pretty) in Hd. congruence.
Qed.

End MoreScriptFacts.

(** ** Loading the script *)

Section LoadFacts.

Variable uuid4_hex : nat -> string.
Variable captured_stdout : gmap string string -> list string -> string.

(** The environment the script leaves when it has run through. *)
Lemma load_script_on (s : Shell) (v : string) :
  env s !! "XONSH_VERSION" = Some v ->
  load_script uuid4_hex s =
    (Ok tt,
     mkShell (<["POSH_EXECUTABLE" := "::OMP::"]>
                (<["POSH_SHELL_VERSION" := v]>
                   (<["POSH_PID" := uuid4_hex (uuids_drawn s)]>
                      (<["POSH_THEME" := "::CONFIG::"]>
                         (<["POWERLINE_COMMAND" := "OMP"]> (env s))))))
             (Some fn_posh_primary) (Some fn_posh_right) (history s)
             (S (uuids_drawn s)) (spawned s)).
Proof.
  intros Hv. unfold load_script, bind, modify, uuid4, getenv.
  cbn [env set_env count_uuid uuids_drawn].
  rewrite !lookup_insert_ne by discriminate. rewrite Hv. reflexivity.
Qed.

Lemma load_script_stops (s : Shell) :
  env s !! "XONSH_VERSION" = None ->
  load_script uuid4_hex s =
    (Raise (KeyError "XONSH_VERSION"),
     mkShell (<["POSH_PID" := uuid4_hex (uuids_drawn s)]>
                (<["POSH_THEME" := "::CONFIG::"]>
                   (<["POWERLINE_COMMAND" := "OMP"]> (env s))))
             (PROMPT s) (RIGHT_PROMPT s) (history s)
             (S (uuids_drawn s)) (spawned s)).
Proof.
  intros Hv. unfold load_script, bind, modify, uuid4, getenv.
  cbn [env set_env count_uuid uuids_drawn].
  rewrite !lookup_insert_ne by discriminate. rewrite Hv. reflexivity.
Qed.

(** Loading over a loaded environment: the five variables are written
    again, and only [$POSH_PID] gets another value. *)
Lemma loaded_env_again (m : gmap string string) (v u u' : string) :
  let m' := <["POSH_EXECUTABLE" := "::OMP::"]>
              (<["POSH_SHELL_VERSION" := v]>
                 (<["POSH_PID" := u]>
                    (<["POSH_THEME" := "::CONFIG::"]>
                       (<["POWERLINE_COMMAND" := "OMP"]> m)))) in
  <["POSH_EXECUTABLE" := "::OMP::"]>
    (<["POSH_SHELL_VERSION" := v]>
       (<["POSH_PID" := u']>
          (<["POSH_THEME" := "::CONFIG::"]>
             (<["POWERLINE_COMMAND" := "OMP"]> m'))))
  = <["POSH_PID" := u']> m'.
Proof.
  intros m'. apply map_eq. intros k. unfold m'.
  rewrite !lookup_insert. repeat case_decide; congruence.
Qed.

(** X8: loading the script a second time changes one thing only: a new
    UUID is drawn and [$POSH_PID] takes it.  The other variables of the
    environment and the hooks are those of the first load, and no load
    touches the history or spawns a process. *)
Theorem reload_redraws_the_identifier (s : Shell) (v : string) :
  env s !! "XONSH_VERSION" = Some v ->
  let s1 := snd (load_script uuid4_hex s) in
  let s2 := snd (load_script uuid4_hex s1) in
  fst (load_script uuid4_hex s1) = Ok tt
  /\ env s2 = <["POSH_PID" := uuid4_hex (S (uuids_drawn s))]> (env s1)
  /\ PROMPT s2 = PROMPT s1 /\ RIGHT_PROMPT s2 = RIGHT_PROMPT s1
  /\ history s2 = history s /\ spawned s2 = spawned s
  /\ env s1 !! "POSH_PID" = Some (uuid4_hex (uuids_drawn s))
  /\ env s2 !! "POSH_PID" = Some (uuid4_hex (S (uuids_drawn s)))
  /\ uuids_drawn s2 = S (S (uuids_drawn s)).
Proof.
  intros Hv s1 s2.
  assert (Hv1 : env s1 !! "XONSH_VERSION" = Some v).
  { unfold s1. rewrite (load_script_on s v Hv). cbn [snd env].
    now rewrite !lookup_insert_ne by discriminate. }
  assert (E2 : load_script uuid4_hex s1 = load_script uuid4_hex s1) by reflexivity.
  rewrite (load_script_on s1 v Hv1) in E2 at 2.
  unfold s2. rewrite E2. cbn [fst snd env PROMPT RIGHT_PROMPT history spawned uuids_drawn].
  unfold s1. rewrite (load_script_on s v Hv).
  cbn [fst snd env PROMPT RIGHT_PROMPT history spawned uuids_drawn].
  assert (Henv := loaded_env_again (env s) v (uuid4_hex (uuids_drawn s))
                    (uuid4_hex (S (uuids_drawn s)))).
  cbv zeta in Henv.
  repeat split.
  - exact Henv.
  - rewrite !lookup_insert_ne by discriminate. apply lookup_insert_eq.
  - rewrite Henv. apply lookup_insert_eq.
Qed.

Lemma load_script_history (s : Shell) :
  history (snd (load_script uuid4_hex s)) = history s.
Proof.
  destruct (env s !! "XONSH_VERSION") as [v |] eqn:Hv.
  - now rewrite (load_script_on s v Hv).
  - now rewrite (load_script_stops s Hv).
Qed.

(** ** Sessions *)

Lemma unset_hooks_spawn_nothing (evs : list event) (s : Shell) :
  PROMPT s = None -> RIGHT_PROMPT s = None ->
  spawned (run captured_stdout evs s) = spawned s.
Proof.
  unfold run. revert s. induction evs as [| ev evs IH]; intros s Hp Hr; cbn [fold_left].
  - reflexivity.
  - destruct ev as [c |]; cbn [host_step].
    + now rewrite IH.
    + unfold draw_prompt. rewrite Hp. cbn [call_hook ret]. rewrite Hr. cbn [call_hook ret snd].
      now apply IH.
Qed.

(** X9: when the host does not provide [$XONSH_VERSION], loading stops
    with a [KeyError] at the line that reads it: [$POWERLINE_COMMAND],
    [$POSH_THEME] and [$POSH_PID] are set, [$POSH_SHELL_VERSION],
    [$POSH_EXECUTABLE] and the two prompt hooks are not, and no prompt
    draw of the session spawns the renderer. *)
Theorem load_without_shell_version (host_env : gmap string string) (evs : list event) :
  host_env !! "XONSH_VERSION" = None ->
  fst (load_script uuid4_hex (fresh_shell host_env)) = Raise (KeyError "XONSH_VERSION")
  /\ spawned (session uuid4_hex captured_stdout host_env evs) = []
  /\ PROMPT (session uuid4_hex captured_stdout host_env evs) = None
  /\ RIGHT_PROMPT (session uuid4_hex captured_stdout host_env evs) = None
  /\ env (session uuid4_hex captured_stdout host_env evs) !! "POWERLINE_COMMAND"
     = Some "OMP"
  /\ env (session uuid4_hex captured_stdout host_env evs) !! "POSH_THEME"
     = Some "::CONFIG::"
  /\ env (session uuid4_hex captured_stdout host_env evs) !! "POSH_PID"
     = Some (uuid4_hex 0)
  /\ env (session uuid4_hex captured_stdout host_env evs) !! "POSH_SHELL_VERSION"
     = host_env !! "POSH_SHELL_VERSION"
  /\ env (session uuid4_hex captured_stdout host_env evs) !! "POSH_EXECUTABLE"
     = host_env !! "POSH_EXECUTABLE".
Proof.
  intros Hv. unfold session.
  rewrite (load_script_stops (fresh_shell host_env) Hv). cbn [fst snd].
  set (s0 := mkShell _ _ _ _ _ _).
  destruct (run_kept captured_stdout evs s0) as (Henv & Hp & Hr & _).
  split; [reflexivity |].
  split; [now rewrite unset_hooks_spawn_nothing |].
  rewrite Hp, Hr, Henv. cbn [s0 env PROMPT RIGHT_PROMPT fresh_shell uuids_drawn].
  repeat split; try reflexivity.
  - rewrite !lookup_insert_ne by discriminate. apply lookup_insert_eq.
  - rewrite lookup_insert_ne by discriminate. apply lookup_insert_eq.
  - apply lookup_insert_eq.
  - now rewrite !lookup_insert_ne by discriminate.
  - now rewrite !lookup_insert_ne by discriminate.
Qed.

Lemma run_last_entry (evs : list event) (s : Shell) :
  last (history (run captured_stdout evs s)) =
  match last_executed evs with
  | Some c => Some c
  | None => last (history s)
  end.
Proof.
  unfold run. revert s. induction evs as [| ev evs IH]; intros s; cbn [fold_left last_executed].
  - reflexivity.
  - destruct ev as [c |]; cbn [host_step]; rewrite IH.
    + cbn [history set_history]. rewrite last_snoc. now destruct (last_executed evs).
    + destruct (draw_prompt_frame captured_stdout s) as (_ & _ & _ & Hh & _).
      now rewrite Hh.
Qed.

(** X10: at any moment of a session the command context is that of the
    last command executed so far, and [(0, 0)] before the first; prompt
    draws and earlier commands do not count. *)
Theorem session_context_is_of_last_command
    (host_env : gmap string string) (evs : list event) :
  fst (get_command_context (session uuid4_hex captured_stdout host_env evs)) =
  match last_executed evs with
  | Some c => entry_context c
  | None => Ok (0, 0)
  end.
Proof.
  unfold session.
  pose proof (run_last_entry evs (snd (load_script uuid4_hex (fresh_shell host_env))))
    as Hlast.
  rewrite load_script_history in Hlast. cbn [fresh_shell history last] in Hlast.
  destruct (last_executed evs) as [c |].
  - now rewrite (get_command_context_last _ _ Hlast).
  - apply last_None in Hlast. now rewrite (get_command_context_empty _ Hlast).
Qed.

Lemma context_ok_when_finite (s : Shell) :
  scaled_difference_finite (history s) = true ->
  exists ctx : Z * Z, fst (get_command_context s) = Ok ctx.
Proof.
  unfold scaled_difference_finite. intros H.
  destruct (last (history s)) as [c |] eqn:Hlast.
  - destruct (ts c !! 0%nat) as [t0 |] eqn:H0; [| discriminate].
    destruct (ts c !! 1%nat) as [t1 |] eqn:H1; [| discriminate].
    destruct (py_round_finite _ H) as [d Hd].
    exists (rtn c, d).
    now rewrite (get_command_context_last _ _ Hlast), (entry_context_at _ _ _ H0 H1), Hd.
  - apply last_None in Hlast. exists (0, 0).
    now rewrite (get_command_context_empty _ Hlast).
Qed.

Lemma call_spawns_one (f : callable) (s : Shell) :
  is_Some (env s !! "POSH_EXECUTABLE") -> is_Some (env s !! "POSH_SHELL_VERSION") ->
  scaled_difference_finite (history s) = true ->
  length (spawned (snd (call captured_stdout f s))) = S (length (spawned s))
  /\ frame s (snd (call captured_stdout f s)).
Proof.
  intros [exe Hexe] [ver Hver] Hfin.
  destruct (context_ok_when_finite s Hfin) as [[status duration] Hctx].
  rewrite call_unfold, Hctx, Hexe, Hver. cbn [snd spawned log_spawn].
  split; [| apply frame_log_spawn]. rewrite length_app. cbn [length]. lia.
Qed.

Lemma draw_spawns_two (s : Shell) :
  rendering s ->
  length (spawned (snd (draw_prompt captured_stdout s))) = S (S (length (spawned s)))
  /\ rendering (snd (draw_prompt captured_stdout s)).
Proof.
  intros (Hp & Hr & Hexe & Hver & Hfin).
  rewrite draw_prompt_snd, Hp. cbn [call_hook].
  destruct (call_spawns_one fn_posh_primary s Hexe Hver Hfin)
    as (Hlen1 & Henv1 & Hp1 & Hr1 & Hh1 & _).
  set (s1 := snd (call captured_stdout fn_posh_primary s)) in *.
  rewrite Hr1, Hr. cbn [call_hook].
  assert (Hexe1 : is_Some (env s1 !! "POSH_EXECUTABLE")) by now rewrite Henv1.
  assert (Hver1 : is_Some (env s1 !! "POSH_SHELL_VERSION")) by now rewrite Henv1.
  assert (Hfin1 : scaled_difference_finite (history s1) = true) by now rewrite Hh1.
  destruct (call_spawns_one fn_posh_right s1 Hexe1 Hver1 Hfin1)
    as (Hlen2 & Henv2 & Hp2 & Hr2 & Hh2 & _).
  split; [lia |]. unfold rendering.
  rewrite Hp2, Hr2, Henv2, Hh2, Hp1, Hr1. auto.
Qed.

Lemma run_spawns_two_per_draw (evs : list event) (s : Shell) :
  rendering s -> all_entries_finite evs = true ->
  length (spawned (run captured_stdout evs s)) = (length (spawned s) + 2 * draws evs)%nat.
Proof.
  unfold run. revert s.
  induction evs as [| ev evs IH]; intros s Hs Hall; cbn [fold_left draws].
  - lia.
  - destruct ev as [c |]; cbn [host_step all_entries_finite] in *.
    + apply andb_true_iff in Hall as [Hc Hall]. rewrite IH; auto.
      destruct Hs as (Hp & Hr & Hexe & Hver & _). repeat split; auto.
      cbn [history set_history]. unfold scaled_difference_finite in *.
      now rewrite last_snoc.
    + destruct (draw_spawns_two s Hs) as [Hlen Hs']. rewrite IH; auto. lia.
Qed.

(** X11: in a session whose commands all leave two timestamps with a
    finite difference in milliseconds, every prompt draw spawns the
    renderer twice, and nothing else does: the processes spawned are twice
    as many as the draws. *)
Theorem draws_spawn_two_each
    (host_env : gmap string string) (v : string) (evs : list event) :
  host_env !! "XONSH_VERSION" = Some v ->
  all_entries_finite evs = true ->
  length (spawned (session uuid4_hex captured_stdout host_env evs)) = (2 * draws evs)%nat.
Proof.
  intros Hv Hall. unfold session.
  rewrite (load_script_on (fresh_shell host_env) v Hv). cbn [snd].
  rewrite run_spawns_two_per_draw; [reflexivity | | exact Hall].
  repeat split; cbn [env fresh_shell]; try reflexivity.
  - rewrite lookup_insert_eq. eauto.
  - rewrite lookup_insert_ne by discriminate. rewrite lookup_insert_eq. eauto.
Qed.

End LoadFacts.

(** ** The further properties at work on the sample session *)

Lemma swapped_timestamps_negate_duration_witness :
  fst (get_command_context (sample_session [Executed reversed_entry]))
  = negated 0 (fst (get_command_context (sample_session [Executed failed_entry]))).
Proof.
  apply (swapped_timestamps_negate_duration
           (sample_session [Executed failed_entry])
           (sample_session [Executed reversed_entry])
           failed_entry reversed_entry float_10_0 float_10_5);
    vm_compute; reflexivity.
Defined.

Lemma equal_timestamps_give_zero_witness :
  get_command_context (sample_session [Executed instant_entry])
  = (Ok (0, 0), sample_session [Executed instant_entry]).
Proof.
  apply (equal_timestamps_give_zero (sample_session [Executed instant_entry])
           instant_entry float_10_5);
    vm_compute; reflexivity.
Defined.

Lemma duration_nonpos_when_end_not_after_start_witness :
  (exists d : Z,
      get_command_context (sample_session [Executed reversed_entry])
      = (Ok (0, d), sample_session [Executed reversed_entry]) /\ d <= 0)
  /\ (PyFloat.mul (PyFloat.sub float_0_0 float_2_1023) (PyFloat.of_int 1000)
      = S754_infinity true
      /\ get_command_context (sample_session [Executed underflow_entry])
         = (Raise OverflowError, sample_session [Executed underflow_entry])).
Proof.
  split.
  - apply (duration_nonpos_when_end_not_after_start
             (sample_session [Executed reversed_entry]) reversed_entry
             float_10_5 float_10_0);
      vm_compute; reflexivity.
  - apply (duration_nonpos_when_end_not_after_start
             (sample_session [Executed underflow_entry]) underflow_entry
             float_2_1023 float_0_0);
      vm_compute; reflexivity.
Defined.

Lemma context_raises_iff_witness :
  exists c : HistoryEntry,
    last (history (sample_session [Executed short_entry])) = Some c /\
    (((length (ts c) < 2)%nat /\ IndexError = IndexError)
     \/ exists t0 t1 : PyFloat.float,
         ts c !! 0%nat = Some t0 /\ ts c !! 1%nat = Some t1 /\
         (((exists sg : bool,
               PyFloat.mul (PyFloat.sub t1 t0) (PyFloat.of_int 1000) = S754_infinity sg)
           /\ IndexError = OverflowError)
          \/ (PyFloat.mul (PyFloat.sub t1 t0) (PyFloat.of_int 1000) = S754_nan
              /\ IndexError = ValueError))).
Proof.
  apply (proj1 (context_raises_iff (sample_session [Executed short_entry]) IndexError)).
  vm_compute; reflexivity.
Defined.

Lemma prompt_call_raises_before_spawn_witness :
  call sample_stdout fn_posh_right (sample_session [Executed short_entry])
  = (Raise IndexError, sample_session [Executed short_entry])
  /\ call sample_stdout fn_posh_primary
       (session sample_uuid sample_stdout ∅ [Executed failed_entry])
     = (Raise (KeyError "POSH_EXECUTABLE"),
        session sample_uuid sample_stdout ∅ [Executed failed_entry])
  /\ call sample_stdout fn_posh_primary
       (session sample_uuid sample_stdout {[ "POSH_EXECUTABLE" := "/bin/omp" ]} [])
     = (Raise (KeyError "POSH_SHELL_VERSION"),
        session sample_uuid sample_stdout {[ "POSH_EXECUTABLE" := "/bin/omp" ]} []).
Proof.
  split; [| split].
  - apply (proj1 (prompt_call_raises_before_spawn sample_stdout fn_posh_right
                    (sample_session [Executed short_entry])) IndexError).
    vm_compute; reflexivity.
  - apply (proj1 (proj2 (prompt_call_raises_before_spawn sample_stdout fn_posh_primary
                           (session sample_uuid sample_stdout ∅ [Executed failed_entry])))
             (1, 500));
      vm_compute; reflexivity.
  - apply (proj2 (proj2 (prompt_call_raises_before_spawn sample_stdout fn_posh_primary
                           (session sample_uuid sample_stdout
                              {[ "POSH_EXECUTABLE" := "/bin/omp" ]} [])))
             (0, 0) "/bin/omp");
      vm_compute; reflexivity.
Defined.

Lemma prompt_call_returns_witness :
  exists argv : list string,
    spawned (snd (call sample_stdout fn_posh_right (sample_session [Executed failed_entry])))
    = (spawned (sample_session [Executed failed_entry]) ++ [argv])%list
    /\ "right> " = sample_stdout (env (sample_session [Executed failed_entry])) argv
    /\ argv !! 2%nat = Some (mode_of fn_posh_right)
    /\ length argv = 7%nat
    /\ frame (sample_session [Executed failed_entry])
             (snd (call sample_stdout fn_posh_right (sample_session [Executed failed_entry]))).
Proof.
  apply (prompt_call_returns sample_stdout fn_posh_right
           (sample_session [Executed failed_entry]) "right> ").
  vm_compute; reflexivity.
Defined.

Lemma command_line_determines_context_witness :
  fst (get_command_context (sample_session [Executed failed_entry]))
  = fst (get_command_context (sample_session [Executed tie_entry; Draw; Executed failed_entry])).
Proof.
  apply (command_line_determines_context sample_stdout fn_posh_primary
           (sample_session [Executed failed_entry])
           (sample_session [Executed tie_entry; Draw; Executed failed_entry])
           "primary> " "primary> ");
    vm_compute; reflexivity.
Defined.

Lemma reload_redraws_the_identifier_witness :
  env (snd (load_script (fun n : nat => py_str (Z.of_nat n))
              (fresh_shell sample_env))) !! "POSH_PID"
  = Some "0"
  /\ env (snd (load_script (fun n : nat => py_str (Z.of_nat n))
                 (snd (load_script (fun n : nat => py_str (Z.of_nat n))
                         (fresh_shell sample_env))))) !! "POSH_PID"
     = Some "1"
  /\ env (snd (load_script (fun n : nat => py_str (Z.of_nat n))
                 (snd (load_script (fun n : nat => py_str (Z.of_nat n))
                         (fresh_shell sample_env)))))
     = <["POSH_PID" := "1"]>
         (env (snd (load_script (fun n : nat => py_str (Z.of_nat n))
                      (fresh_shell sample_env)))).
Proof.
  assert (Hv : env (fresh_shell sample_env) !! "XONSH_VERSION" = Some "0.14.0")
    by (vm_compute; reflexivity).
  destruct (reload_redraws_the_identifier (fun n : nat => py_str (Z.of_nat n))
              (fresh_shell sample_env) "0.14.0" Hv)
    as (_ & Henv & _ & _ & _ & _ & Hp1 & Hp2 & _).
  split; [exact Hp1 | split; [exact Hp2 | exact Henv]].
Defined.

Lemma load_without_shell_version_witness :
  fst (load_script sample_uuid (fresh_shell ∅)) = Raise (KeyError "XONSH_VERSION")
  /\ spawned (session sample_uuid sample_stdout ∅ [Draw; Executed failed_entry; Draw]) = [].
Proof.
  assert (Hv : (∅ : gmap string string) !! "XONSH_VERSION" = None)
    by (vm_compute; reflexivity).
  destruct (load_without_shell_version sample_uuid sample_stdout ∅
              [Draw; Executed failed_entry; Draw] Hv) as (Hload & Hspawn & _).
  split; [exact Hload | exact Hspawn].
Defined.

Lemma draws_spawn_two_each_witness :
  length (spawned (sample_session [Draw; Executed failed_entry; Draw; Draw])) = 6%nat.
Proof.
  apply (draws_spawn_two_each sample_uuid sample_stdout sample_env "0.14.0"
           [Draw; Executed failed_entry; Draw; Draw]);
    vm_compute; reflexivity.
Defined.

Lemma session_identifier_is_drawn_once_witness :
  env (sample_session [Draw; Executed failed_entry]) !! "POSH_PID"
  = Some "7c9e6679742540de944be07fc1f90ae7"
  /\ uuids_drawn (sample_session [Draw; Executed failed_entry]) = 1%nat
  /\ exists argv : list string,
      spawned (snd (call sample_stdout fn_posh_primary
                      (sample_session [Draw; Executed failed_entry])))
      = (spawned (sample_session [Draw; Executed failed_entry]) ++ [argv])%list
      /\ "primary> "
         = sample_stdout (env (sample_session [Draw; Executed failed_entry])) argv.
Proof.
  destruct (session_identifier_is_drawn_once sample_uuid sample_stdout)
    as (_ & Hpid & Hcall).
  destruct (Hpid sample_env [Draw; Executed failed_entry]) as (Hp & Hu).
  split; [exact Hp | split; [exact Hu |]].
  apply (Hcall sample_env [Draw; Executed failed_entry] fn_posh_primary "primary> ").
  vm_compute; reflexivity.
Defined.
